(** * Host-side Bluetooth stack: LE Advertising Manager and classic Power Manager

    A shallow embedding of the parts of
      - [system/gd/hci/le_advertising_manager.cc] (LE advertising manager) and
      - the device-manager power-management action functions ([bta_dm_pm_*])
    that the specification's testable properties talk about, together with the
    theorems that settle those properties on the code.

    Conventions.
      - An octet is a [Z] in [0, 256); a [uint16_t] accumulator is a [Z] whose
        additions are reduced modulo [2^16]; an [int8_t] is a [Z] in
        [-128, 127].
      - Advertiser ids, timer-slot numbers and array indices are [nat].
      - [std::map] is [gmap]; [operator[]] on a map is written out (it inserts a
        value-initialised element when the key is absent).
      - [std::vector] and C arrays are lists.
      - Every function that talks to the controller, to the client callbacks or
        to the alarm service returns the list of effects it performed, in program
        order, next to the new state. *)

From Stdlib Require Import ZArith List Bool Lia.
From stdpp Require Import base option list gmap.
Import ListNotations.

(* ===================================================================== *)
(** * 1. Address policy ([le_advertising_manager.cc], lines 113-157)      *)
(* ===================================================================== *)

Module AddressPolicy.

(** [AdvertiserAddressType] of [le_advertising_manager.h]. *)
Inductive AdvertiserAddressType :=
  | PUBLIC
  | RESOLVABLE_RANDOM
  | NONRESOLVABLE_RANDOM.

(** Modelled from the spec: the host address policy of [LeAddressManager]
    (declared in [le_address_manager.h]) ranges over
    [{PublicOnly, StaticOnly, RPA, NRPA}].  With these four enumerators the
    [default:] arm of the switch ([log::fatal("unreachable")]) is dead. *)
Inductive Policy :=
  | USE_PUBLIC_ADDRESS
  | USE_STATIC_ADDRESS
  | USE_NON_RESOLVABLE_ADDRESS
  | USE_RESOLVABLE_ADDRESS.

#[global] Instance AdvertiserAddressType_eq_dec : EqDecision AdvertiserAddressType.
Proof. solve_decision. Defined.

#[global] Instance Policy_eq_dec : EqDecision Policy.
Proof. solve_decision. Defined.

Definition GetAdvertiserAddressTypeFromRequestedTypeAndPolicy
    (requested_address_type : AdvertiserAddressType)
    (address_policy : Policy) : AdvertiserAddressType :=
  match address_policy with
  | USE_PUBLIC_ADDRESS | USE_STATIC_ADDRESS => PUBLIC
  | USE_RESOLVABLE_ADDRESS => requested_address_type
  | USE_NON_RESOLVABLE_ADDRESS =>
      match requested_address_type with
      | RESOLVABLE_RANDOM => NONRESOLVABLE_RANDOM
      | _ => requested_address_type
      end
  end.

Definition GetAdvertiserAddressTypeNonConnectable
    (requested_address_type : AdvertiserAddressType)
    (address_policy : Policy) : AdvertiserAddressType :=
  match address_policy with
  | USE_PUBLIC_ADDRESS | USE_STATIC_ADDRESS =>
      match requested_address_type with
      | RESOLVABLE_RANDOM => NONRESOLVABLE_RANDOM
      | _ => requested_address_type
      end
  | _ =>
      GetAdvertiserAddressTypeFromRequestedTypeAndPolicy
        requested_address_type address_policy
  end.

(** The address-type assignment of [create_advertiser_with_id] (lines 523-529)
    and of [create_extended_advertiser_with_id] (lines 678-684):
    [nrpa_non_connectable_adv] is the runtime feature flag, [connectable] is
    [config.connectable]. *)
Definition creation_address_type
    (nrpa_non_connectable_adv : bool) (connectable : bool)
    (requested_address_type : AdvertiserAddressType)
    (address_policy : Policy) : AdvertiserAddressType :=
  if nrpa_non_connectable_adv && negb connectable then
    GetAdvertiserAddressTypeNonConnectable requested_address_type address_policy
  else
    GetAdvertiserAddressTypeFromRequestedTypeAndPolicy
      requested_address_type address_policy.

(** The table of the specification (section 4.2), row = requested type,
    column = policy. *)
Definition spec_table
    (requested : AdvertiserAddressType) (policy : Policy)
    : AdvertiserAddressType :=
  match requested, policy with
  | PUBLIC, _ => PUBLIC
  | _, (USE_PUBLIC_ADDRESS | USE_STATIC_ADDRESS) => PUBLIC
  | RESOLVABLE_RANDOM, USE_RESOLVABLE_ADDRESS => RESOLVABLE_RANDOM
  | RESOLVABLE_RANDOM, USE_NON_RESOLVABLE_ADDRESS => NONRESOLVABLE_RANDOM
  | NONRESOLVABLE_RANDOM, _ => NONRESOLVABLE_RANDOM
  end.

End AddressPolicy.

(* ===================================================================== *)
(** * 2. Tx power calibration ([le_advertising_manager.cc], lines 219-250) *)
(* ===================================================================== *)

Module TxPower.

Definition kLeAdvertisingTxPowerMin : Z := -127.
Definition kLeAdvertisingTxPowerMax : Z := 20.
Definition kLeTxPathLossCompMin : Z := -128.
Definition kLeTxPathLossCompMax : Z := 127.

Definition is_int8 (x : Z) : Prop := (-128 <= x <= 127)%Z.

(** [get_tx_path_loss_compensation].  The argument is the system property
    [bluetooth.hardware.radio.le_tx_path_loss_comp_db]: [None] when the property
    is not set, [Some None] when it is set but [Int64FromString] rejects it,
    [Some (Some n)] when it parses to [n]. *)
Definition get_tx_path_loss_compensation
    (compensation_prop : option (option Z)) : Z :=
  match compensation_prop with
  | Some (Some number) =>
      if ((number <? kLeTxPathLossCompMin) || (number >? kLeTxPathLossCompMax))%Z
      then 0%Z
      else number
  | _ => 0%Z
  end.

(** [get_tx_power_after_calibration]; [le_tx_path_loss_comp_] is the member
    set from [get_tx_path_loss_compensation] in [start]. *)
Definition get_tx_power_after_calibration
    (le_tx_path_loss_comp_ : Z) (tx_power : Z) : Z :=
  if (le_tx_path_loss_comp_ =? 0)%Z then tx_power
  else
    let calibrated_tx_power := tx_power in
    let number := (tx_power + le_tx_path_loss_comp_)%Z in
    if ((number <? kLeAdvertisingTxPowerMin) || (number >? kLeAdvertisingTxPowerMax))%Z
    then calibrated_tx_power
    else number.

(** The value [set_parameters] stores as the set's tx power (line 929), as a
    function of the system property and of the requested power. *)
Definition calibrated_tx_power
    (compensation_prop : option (option Z)) (tx_power : Z) : Z :=
  get_tx_power_after_calibration
    (get_tx_path_loss_compensation compensation_prop) tx_power.

(** What the specification's sentence describes: the sum clipped to
    [[-127, 20]]. *)
Definition spec_clipped_tx_power (comp tx_power : Z) : Z :=
  Z.max kLeAdvertisingTxPowerMin (Z.min kLeAdvertisingTxPowerMax (tx_power + comp)).

End TxPower.

(* ===================================================================== *)
(** * 3. Advertising data elements and their wire form                    *)
(* ===================================================================== *)

Module Gap.

(** Octets. *)
Definition octet := Z.

Definition is_octet (b : Z) : Prop := (0 <= b < 256)%Z.

(** Reduction of a [uint8_t] / [uint16_t] assignment. *)
Definition to_uint8 (x : Z) : Z := (x mod 256)%Z.
Definition to_uint16 (x : Z) : Z := (x mod 65536)%Z.

(** [GapDataType] is an 8-bit enumeration; an element keeps its code.  The three
    codes the manager inspects (section 6 of the specification for [0x31] and
    [0x01]; [0x0A] is the assigned number of the Tx Power Level AD type). *)
Definition FLAGS : Z := 0x01.
Definition TX_POWER_LEVEL : Z := 0x0A.
Definition ENCRYPTED_ADVERTISING_DATA : Z := 0x31.

(** [AdvertisingFlag]. *)
Definition LE_LIMITED_DISCOVERABLE : Z := 0x01.
Definition LE_GENERAL_DISCOVERABLE : Z := 0x02.

(** [GapData]: [{data_type_, data_}]. *)
Record GapData := mkGapData {
  data_type_ : Z;
  data_ : list octet;
}.

#[global] Instance GapData_eq_dec : EqDecision GapData.
Proof. solve_decision. Defined.

(** A value-initialised [GapData] (as declared by [GapData ED_AD_Data;]). *)
Definition GapData_default : GapData := mkGapData 0 [].

(** Modelled from the spec: [GapData::size()] is generated from the packet
    description of the length-prefixed triple [<len, type, bytes>]: one octet
    of length, one of type, then the value. *)
Definition size (g : GapData) : Z := 2 + Z.of_nat (length (data_ g)).

(** The length-type-value octets of one element, as the manager itself writes
    them (lines 1627-1629 and 2294-2297): the length octet is
    [(uint8_t)(data_.size() + 1)]. *)
Definition ltv (g : GapData) : list octet :=
  to_uint8 (Z.of_nat (length (data_ g)) + 1) :: data_type_ g :: data_ g.

(** Serialization of an element list: the concatenation of the triples. *)
Definition serialize (data : list GapData) : list octet :=
  concat (map ltv data).

(** True (unbounded) total serialized length of a list. *)
Definition total_size (data : list GapData) : Z :=
  fold_right (fun g acc => size g + acc)%Z 0%Z data.

(** [data_len] as the manager accumulates it: a [uint16_t] with
    [data_len += data[i].size()]. *)
Definition data_len16 (data : list GapData) : Z :=
  fold_left (fun acc g => to_uint16 (acc + size g)) data 0%Z.

(** [data_has_flags] *)
Definition data_has_flags (data : list GapData) : bool :=
  existsb (fun gap_data => (data_type_ gap_data =? FLAGS)%Z) data.

End Gap.

(* ===================================================================== *)
(** * 4. State of the advertising manager                                 *)
(* ===================================================================== *)

Module Hci.
Import Gap AddressPolicy.

Definition AdvertiserId := nat.

(** [kInvalidId], [kInvalidHandle] ([0xFF]) and [kIdLocal] ([0xff], line 56). *)
Definition kInvalidId : nat := 255.
Definition kInvalidHandle : nat := 255.
Definition kIdLocal : Z := 0xff.
Definition kLenOfFlags : Z := 0x03.

Inductive AdvertisingApiType := LEGACY | ANDROID_HCI | EXTENDED.

Inductive AddressType :=
  | PUBLIC_DEVICE_ADDRESS
  | RANDOM_DEVICE_ADDRESS
  | PUBLIC_IDENTITY_ADDRESS
  | RANDOM_IDENTITY_ADDRESS.

Record AddressWithType := mkAddressWithType {
  GetAddress : Z;
  GetAddressType : AddressType;
}.

Inductive Enable := DISABLED | ENABLED.

Inductive Operation :=
  | INTERMEDIATE_FRAGMENT
  | FIRST_FRAGMENT
  | LAST_FRAGMENT
  | COMPLETE_ADVERTISEMENT.

(** The status codes of [LE Advertising Set Terminated] the manager tells
    apart; every other code is [OTHER_ERROR]. *)
Inductive ErrorCode :=
  | SUCCESS
  | ADVERTISING_TIMEOUT
  | LIMIT_REACHED
  | OPERATION_CANCELLED_BY_HOST
  | OTHER_ERROR (code : Z).

Inductive AdvertisingStatus :=
  | STATUS_SUCCESS
  | DATA_TOO_LARGE
  | TOO_MANY_ADVERTISERS
  | INTERNAL_ERROR
  | FEATURE_UNSUPPORTED.

#[global] Instance AdvertisingApiType_eq_dec : EqDecision AdvertisingApiType.
Proof. solve_decision. Defined.
#[global] Instance AddressType_eq_dec : EqDecision AddressType.
Proof. solve_decision. Defined.
#[global] Instance AddressWithType_eq_dec : EqDecision AddressWithType.
Proof. solve_decision. Defined.
#[global] Instance Enable_eq_dec : EqDecision Enable.
Proof. solve_decision. Defined.
#[global] Instance Operation_eq_dec : EqDecision Operation.
Proof. solve_decision. Defined.
#[global] Instance ErrorCode_eq_dec : EqDecision ErrorCode.
Proof. solve_decision. Defined.
#[global] Instance AdvertisingStatus_eq_dec : EqDecision AdvertisingStatus.
Proof. solve_decision. Defined.

Record EnabledSet := mkEnabledSet {
  advertising_handle_ : nat;
  duration_ : Z;
  max_extended_advertising_events_ : Z;
}.

#[global] Instance EnabledSet_eq_dec : EqDecision EnabledSet.
Proof. solve_decision. Defined.

(** A value-initialised [EnabledSet] ([EnabledSet curr_set;]). *)
Definition EnabledSet_default : EnabledSet := mkEnabledSet 0 0 0.

(** [struct Advertiser] (lines 81-111).  A callback or an owned alarm is
    represented by whether it is set; handler and client callbacks that no
    modelled function reads are left out. *)
Record Advertiser := mkAdvertiser {
  current_address : AddressWithType;
  address_type : AdvertiserAddressType;
  status_callback : bool;
  timeout_callback : bool;
  tx_power : Z;
  duration : Z;
  max_extended_advertising_events : Z;
  started : bool;
  is_legacy : bool;
  connectable : bool;
  discoverable : bool;
  directed : bool;
  in_use : bool;
  include_adi : bool;
  is_periodic : bool;
  address_rotation_alarm : bool;
  advertisement : list GapData;
  scan_response : list GapData;
  periodic_data : list GapData;
  randomizer : list octet;
  advertisement_enc : list GapData;
  scan_response_enc : list GapData;
  periodic_data_enc : list GapData;
  enc_key_value : list octet;
}.

(** The element [std::map::operator[]] inserts for an absent key. *)
Definition Advertiser_default : Advertiser :=
  mkAdvertiser (mkAddressWithType 0 PUBLIC_DEVICE_ADDRESS) PUBLIC
    false false 0 0 0 false false false false false false false false false
    [] [] [] [] [] [] [] [].

(** Field updates. *)
Definition with_timeout_callback (v : bool) (a : Advertiser) : Advertiser :=
  mkAdvertiser (current_address a) (address_type a) (status_callback a) v
    (tx_power a) (duration a) (max_extended_advertising_events a) (started a)
    (is_legacy a) (connectable a) (discoverable a) (directed a) (in_use a)
    (include_adi a) (is_periodic a) (address_rotation_alarm a)
    (advertisement a) (scan_response a) (periodic_data a) (randomizer a)
    (advertisement_enc a) (scan_response_enc a) (periodic_data_enc a)
    (enc_key_value a).

Definition with_duration (d m : Z) (a : Advertiser) : Advertiser :=
  mkAdvertiser (current_address a) (address_type a) (status_callback a)
    (timeout_callback a) (tx_power a) d m (started a)
    (is_legacy a) (connectable a) (discoverable a) (directed a) (in_use a)
    (include_adi a) (is_periodic a) (address_rotation_alarm a)
    (advertisement a) (scan_response a) (periodic_data a) (randomizer a)
    (advertisement_enc a) (scan_response_enc a) (periodic_data_enc a)
    (enc_key_value a).

Definition with_address_rotation_alarm (v : bool) (a : Advertiser) : Advertiser :=
  mkAdvertiser (current_address a) (address_type a) (status_callback a)
    (timeout_callback a) (tx_power a) (duration a)
    (max_extended_advertising_events a) (started a)
    (is_legacy a) (connectable a) (discoverable a) (directed a) (in_use a)
    (include_adi a) (is_periodic a) v
    (advertisement a) (scan_response a) (periodic_data a) (randomizer a)
    (advertisement_enc a) (scan_response_enc a) (periodic_data_enc a)
    (enc_key_value a).

Definition with_advertisement (d e : list GapData) (a : Advertiser) : Advertiser :=
  mkAdvertiser (current_address a) (address_type a) (status_callback a)
    (timeout_callback a) (tx_power a) (duration a)
    (max_extended_advertising_events a) (started a)
    (is_legacy a) (connectable a) (discoverable a) (directed a) (in_use a)
    (include_adi a) (is_periodic a) (address_rotation_alarm a)
    d (scan_response a) (periodic_data a) (randomizer a)
    e (scan_response_enc a) (periodic_data_enc a)
    (enc_key_value a).

Definition with_scan_response (d e : list GapData) (a : Advertiser) : Advertiser :=
  mkAdvertiser (current_address a) (address_type a) (status_callback a)
    (timeout_callback a) (tx_power a) (duration a)
    (max_extended_advertising_events a) (started a)
    (is_legacy a) (connectable a) (discoverable a) (directed a) (in_use a)
    (include_adi a) (is_periodic a) (address_rotation_alarm a)
    (advertisement a) d (periodic_data a) (randomizer a)
    (advertisement_enc a) e (periodic_data_enc a)
    (enc_key_value a).

Definition with_periodic_data (d e : list GapData) (a : Advertiser) : Advertiser :=
  mkAdvertiser (current_address a) (address_type a) (status_callback a)
    (timeout_callback a) (tx_power a) (duration a)
    (max_extended_advertising_events a) (started a)
    (is_legacy a) (connectable a) (discoverable a) (directed a) (in_use a)
    (include_adi a) (is_periodic a) (address_rotation_alarm a)
    (advertisement a) (scan_response a) d (randomizer a)
    (advertisement_enc a) (scan_response_enc a) e
    (enc_key_value a).

Definition with_randomizer (r : list octet) (a : Advertiser) : Advertiser :=
  mkAdvertiser (current_address a) (address_type a) (status_callback a)
    (timeout_callback a) (tx_power a) (duration a)
    (max_extended_advertising_events a) (started a)
    (is_legacy a) (connectable a) (discoverable a) (directed a) (in_use a)
    (include_adi a) (is_periodic a) (address_rotation_alarm a)
    (advertisement a) (scan_response a) (periodic_data a) r
    (advertisement_enc a) (scan_response_enc a) (periodic_data_enc a)
    (enc_key_value a).

(** HCI commands the modelled functions build (the names are the builders'). *)
Inductive Command :=
  | LeSetAdvertisingEnable (enable : Enable)
  | LeMultiAdvtSetEnable (enable : Enable) (id : AdvertiserId)
  | LeSetExtendedAdvertisingEnable (enable : Enable) (sets : list EnabledSet)
  | LeSetPeriodicAdvertisingEnable (enable include_adi : bool) (id : AdvertiserId)
  | LeSetAdvertisingSetRandomAddress (id : AdvertiserId) (address : Z)
  | LeSetScanResponseData (data : list GapData)
  | LeSetAdvertisingData (data : list GapData)
  | LeMultiAdvtSetScanResp (data : list GapData) (id : AdvertiserId)
  | LeMultiAdvtSetData (data : list GapData) (id : AdvertiserId)
  | LeSetExtendedScanResponseData
      (id : AdvertiserId) (operation : Operation) (data : list GapData)
  | LeSetExtendedAdvertisingData
      (id : AdvertiserId) (operation : Operation) (data : list GapData)
  | LeSetExtendedScanResponseDataRaw
      (id : AdvertiserId) (operation : Operation) (payload : list octet)
  | LeSetExtendedAdvertisingDataRaw
      (id : AdvertiserId) (operation : Operation) (payload : list octet)
  | LeSetPeriodicAdvertisingData
      (id : AdvertiserId) (operation : Operation) (data : list GapData)
  | LeSetPeriodicAdvertisingDataRaw
      (id : AdvertiserId) (operation : Operation) (payload : list octet).

(** The completion handler bound to an enqueued command. *)
Inductive Completion :=
  | check_complete
  | check_status_with_id (send_callback : bool) (id : AdvertiserId)
  | on_set_advertising_enable_complete
      (enable : bool) (sets : list EnabledSet) (trigger_callbacks : bool)
  | on_set_extended_advertising_enable_complete
      (enable : bool) (sets : list EnabledSet) (trigger_callbacks : bool)
  | on_set_periodic_advertising_enable_complete (enable : bool) (id : AdvertiserId)
  | on_set_advertising_set_random_address_complete
      (id : AdvertiserId) (address_with_type : AddressWithType).

(** What a manager function does to the outside, in program order.  The last
    two record a call through a null [address_rotation_alarm] or a null
    [advertising_callbacks_], which the source does not guard at that place. *)
Inductive Effect :=
  | EnqueueCommand (command : Command) (on_complete : Completion)
  | OnAdvertisingDataSet (id : AdvertiserId) (status : AdvertisingStatus)
  | OnScanResponseDataSet (id : AdvertiserId) (status : AdvertisingStatus)
  | OnPeriodicAdvertisingDataSet (id : AdvertiserId) (status : AdvertisingStatus)
  | OnAdvertisingEnabled (id : AdvertiserId) (enable : bool) (status : ErrorCode)
  | RunTimeoutCallback (id : AdvertiserId) (status : ErrorCode)
  | AclOnAdvertisingSetTerminated
      (status : ErrorCode) (connection_handle : Z) (id : AdvertiserId)
      (advertiser_address : AddressWithType) (is_discoverable : bool)
  | AlarmCancel (id : AdvertiserId)
  | AlarmSchedule (id : AdvertiserId) (delay_ms : Z)
  | NullAlarmDereference (id : AdvertiserId)
  | NullCallbacksDereference.

#[global] Instance Command_eq_dec : EqDecision Command.
Proof. solve_decision. Defined.
#[global] Instance Completion_eq_dec : EqDecision Completion.
Proof. solve_decision. Defined.
#[global] Instance Effect_eq_dec : EqDecision Effect.
Proof. solve_decision. Defined.

End Hci.

(* ===================================================================== *)
(** * 5. A state-and-trace monad                                          *)
(* ===================================================================== *)

(** Both subsystems are C/C++ code that mutates a control block and calls out
    (HCI commands, client callbacks, alarms).  [M S E A] is a computation that
    yields an [A], may change a state [S] and appends effects [E] to a trace. *)
Module Monad.

Definition M (S E A : Type) : Type := S -> A * S * list E.

Definition value {S E A} (r : A * S * list E) : A := fst (fst r).
Definition state {S E A} (r : A * S * list E) : S := snd (fst r).
Definition effects {S E A} (r : A * S * list E) : list E := snd r.

Definition ret {S E A} (x : A) : M S E A := fun st => (x, st, []).

Definition bind {S E A B} (m : M S E A) (k : A -> M S E B) : M S E B :=
  fun st =>
    let r1 := m st in
    let r2 := k (value r1) (state r1) in
    (value r2, state r2, effects r1 ++ effects r2).

Definition gets {S E A} (f : S -> A) : M S E A := fun st => (f st, st, []).
Definition modify {S E} (f : S -> S) : M S E unit := fun st => (tt, f st, []).
Definition emit {S E} (e : E) : M S E unit := fun st => (tt, st, [e]).
Definition skip {S E} : M S E unit := ret tt.

Fixpoint for_each {S E A} (f : A -> M S E unit) (l : list A) : M S E unit :=
  match l with
  | [] => skip
  | x :: rest => bind (f x) (fun _ => for_each f rest)
  end.

End Monad.

Notation "'let*' x := m 'in' k" := (Monad.bind m (fun x => k))
  (at level 10, x name, m at level 100, k at level 200).
Notation "m ;;; k" := (Monad.bind m (fun _ => k))
  (at level 100, k at level 200, right associativity).

(* ===================================================================== *)
(** * 6. The environment and the state of the advertising manager       *)
(* ===================================================================== *)

Module Manager.
Import Gap AddressPolicy Hci Monad.

(** The AEAD interface of the cryptographic library (not part of this
    repository), taken as a parameter: [EVP_AEAD_CTX_new] (false when it returns
    [nullptr]), [EVP_AEAD_max_overhead] and [EVP_AEAD_CTX_seal_scatter], which
    maps key, nonce, input and additional data to what it writes into the
    output buffer and into the tag buffer. *)
Record Aead := mkAead {
  EVP_AEAD_CTX_new : list octet -> bool;
  EVP_AEAD_max_overhead : nat;
  EVP_AEAD_CTX_seal_scatter :
    list octet -> list octet -> list octet -> list octet -> list octet * list octet;
}.

(** Everything the manager reads from outside and never writes: the runtime
    feature flags, the constants of [le_advertising_manager.h] (a header that is
    not among the sources, hence parameters), the controller, the address
    manager, the storage module and the random source.  A function of a [nat]
    is an external call whose result may change from call to call; the argument
    is the number of external draws made so far. *)
Record Env := mkEnv {
  divide_long_single_gap_data : bool;
  ble_check_data_length_on_legacy_advertising : bool;
  kLeMaximumLegacyAdvertisingDataLength : Z;
  kLeMaximumFragmentLength : Z;
  kLeMaximumPeriodicDataFragmentLength : Z;
  kLeMaximumGapDataLength : Z;
  SupportsBlePeriodicAdvertising : bool;
  SupportsBlePeriodicAdvertisingAdi : bool;
  GetMacAddress : Z;
  GetAddressPolicy : Policy;
  GetInitiatorAddress : AddressWithType;
  NewResolvableAddress : nat -> AddressWithType;
  NewNonResolvableAddress : nat -> AddressWithType;
  GetNextPrivateAddressIntervalMs : nat -> Z;
  aead : Aead;
  RAND_pseudo_bytes : nat -> nat -> list octet;
  storage_keyiv : option (list octet);
}.

(** The members of [LeAdvertisingManager::impl] the modelled functions use
    (lines 2113-2140); [draws] counts the external draws. *)
Record impl := mkImpl {
  advertising_callbacks_ : bool;
  le_maximum_advertising_data_length_ : Z;
  advertising_sets_ : gmap nat Advertiser;
  paused : bool;
  enabled_sets_ : list EnabledSet;
  id_map_ : gmap nat Z;
  advertising_api_type_ : AdvertisingApiType;
  draws : nat;
}.

Definition with_sets (m : gmap nat Advertiser) (st : impl) : impl :=
  mkImpl (advertising_callbacks_ st) (le_maximum_advertising_data_length_ st)
    m (paused st) (enabled_sets_ st) (id_map_ st) (advertising_api_type_ st)
    (draws st).

Definition with_enabled_sets (l : list EnabledSet) (st : impl) : impl :=
  mkImpl (advertising_callbacks_ st) (le_maximum_advertising_data_length_ st)
    (advertising_sets_ st) (paused st) l (id_map_ st) (advertising_api_type_ st)
    (draws st).

Definition with_id_map (m : gmap nat Z) (st : impl) : impl :=
  mkImpl (advertising_callbacks_ st) (le_maximum_advertising_data_length_ st)
    (advertising_sets_ st) (paused st) (enabled_sets_ st) m
    (advertising_api_type_ st) (draws st).

Definition with_draws (n : nat) (st : impl) : impl :=
  mkImpl (advertising_callbacks_ st) (le_maximum_advertising_data_length_ st)
    (advertising_sets_ st) (paused st) (enabled_sets_ st) (id_map_ st)
    (advertising_api_type_ st) n.

(** Computations of the manager. *)
Abbreviation M := (Monad.M impl Effect).

(** [advertising_sets_[id]]: [std::map::operator[]] inserts a value-initialised
    [Advertiser] when [id] is absent, then yields the element. *)
Definition touch (id : nat) (sets : gmap nat Advertiser) : gmap nat Advertiser :=
  match sets !! id with
  | Some _ => sets
  | None => <[id := Advertiser_default]> sets
  end.

Definition sets_at (id : nat) : M Advertiser :=
  fun st =>
    let sets := touch id (advertising_sets_ st) in
    (default Advertiser_default (sets !! id), with_sets sets st, []).

(** [advertising_sets_[id].field = ...] *)
Definition sets_update (id : nat) (f : Advertiser -> Advertiser) : M unit :=
  fun st =>
    let sets := touch id (advertising_sets_ st) in
    (tt, with_sets (<[id := f (default Advertiser_default (sets !! id))]> sets) st, []).

(** [advertising_sets_.count(id) != 0] *)
Definition sets_count (id : nat) : M bool :=
  gets (fun st => bool_decide (is_Some (advertising_sets_ st !! id))).

(** [id_map_[id]] ([std::map<uint8_t, int>]). *)
Definition id_map_at (id : nat) : M Z :=
  fun st =>
    match id_map_ st !! id with
    | Some reg_id => (reg_id, st, [])
    | None => (0%Z, with_id_map (<[id := 0%Z]> (id_map_ st)) st, [])
    end.

(** [enabled_sets_[id]] ([std::vector]; an index outside the vector is not
    defined in C++, here a read yields a value-initialised element and a write
    does nothing). *)
Definition enabled_at (id : nat) : M EnabledSet :=
  gets (fun st => default EnabledSet_default (enabled_sets_ st !! id)).

Definition enabled_update (id : nat) (f : EnabledSet -> EnabledSet) : M unit :=
  modify (fun st =>
    with_enabled_sets
      (<[id := f (default EnabledSet_default (enabled_sets_ st !! id))]> (enabled_sets_ st))
      st).

(** One more external draw; yields the index of this draw. *)
Definition draw : M nat :=
  fun st => (draws st, with_draws (S (draws st)) st, []).

(** [le_advertising_interface_->EnqueueCommand(builder, handler)] *)
Definition enqueue (c : Command) (k : Completion) : M unit :=
  emit (EnqueueCommand c k).

(** A call through [advertising_callbacks_] that the source guards with
    [if (advertising_callbacks_ != nullptr)]. *)
Definition guarded_callback (e : Effect) : M unit :=
  let* registered := gets advertising_callbacks_ in
  if registered then emit e else skip.

(* ===================================================================== *)
(** * 7. Encrypted advertising data (lines 1603-1681)                     *)
(* ===================================================================== *)

(** A buffer of fixed size after a callee wrote [written] at its start. *)
Definition write_buffer (buffer written : list octet) : list octet :=
  take (length buffer) written ++ drop (length written) buffer.

(** [key_iv]: the advertiser's own key material when it has some, else the
    stored one ([*keyiv]; reading an empty optional is not defined, here it
    yields no octets). *)
Definition key_iv_of (env : Env) (adv_inst : Advertiser) : list octet :=
  if bool_decide (enc_key_value adv_inst = []) then default [] (storage_keyiv env)
  else enc_key_value adv_inst.

(** [key] = [key_iv[0, 16)], [iv] = [key_iv[16, end)]. *)
Definition seal_key (env : Env) (adv_inst : Advertiser) : list octet :=
  take 16 (key_iv_of env adv_inst).
Definition seal_iv (env : Env) (adv_inst : Advertiser) : list octet :=
  drop 16 (key_iv_of env adv_inst).

(** [static const std::vector<uint8_t> ad = {0xEA};] *)
Definition seal_ad : list octet := [0xEA%Z].

(** [nonce]: the randomizer reversed, then the IV reversed (lines 1623-1624). *)
Definition seal_nonce (env : Env) (adv_inst : Advertiser) : list octet :=
  rev (randomizer adv_inst) ++ rev (seal_iv env adv_inst).

(** [in] (lines 1625-1630). *)
Definition seal_input (data : list GapData) : list octet :=
  concat (map ltv data).

Definition EncryptedAdvertising
    (env : Env) (adv_inst : Advertiser) (data : list GapData) : GapData :=
  let key := seal_key env adv_inst in
  let nonce := seal_nonce env adv_inst in
  let input := seal_input data in
  let out := repeat 0%Z (length input) in
  if negb (EVP_AEAD_CTX_new (aead env) key) then GapData_default
  else
    let out_tag := repeat 0%Z (EVP_AEAD_max_overhead (aead env)) in
    let written := EVP_AEAD_CTX_seal_scatter (aead env) key nonce input seal_ad in
    let out := write_buffer out (fst written) in
    let out_tag := write_buffer out_tag (snd written) in
    mkGapData ENCRYPTED_ADVERTISING_DATA
      (rev (randomizer adv_inst) ++ out ++ out_tag).

(** The sealing step of [encrypted_advertising_complete] and of
    [encrypted_periodic_advertising_complete] (lines 2280-2290, 2198-2208):
    draw five random octets, store them as the advertiser's randomizer, seal
    [data_encrypt] and append the sealed element to [data]. *)
Definition seal_and_append
    (env : Env) (advertiser_id : nat)
    (data data_encrypt : list GapData) : M (list GapData) :=
  let* n := draw in
  sets_update advertiser_id (with_randomizer (RAND_pseudo_bytes env n 5)) ;;;
  let* adv_inst := sets_at advertiser_id in
  ret (data ++ [EncryptedAdvertising env adv_inst data_encrypt]).

(* ===================================================================== *)
(** * 8. Fragmentation                                                     *)
(* ===================================================================== *)

(** Modelled from the spec: [packet::FragmentingInserter] (in
    [packet/fragmenting_inserter.h], not among the sources) receives the
    serialized octets one by one and splits the stream by raw octet count: a
    fragment is handed out as soon as it holds [mtu] octets, and [finalize]
    hands out the octets that remain, if any. *)
Fixpoint inserter_on_bytes
    (mtu : nat) (curr_packet : list octet) (bytes : list octet)
    : list (list octet) * list octet :=
  match bytes with
  | [] => ([], curr_packet)
  | b :: rest =>
      let curr_packet := curr_packet ++ [b] in
      if bool_decide (mtu <= length curr_packet) then
        let r := inserter_on_bytes mtu [] rest in
        (curr_packet :: fst r, snd r)
      else inserter_on_bytes mtu curr_packet rest
  end.

Definition FragmentingInserter (mtu : Z) (bytes : list octet) : list (list octet) :=
  let r := inserter_on_bytes (Z.to_nat mtu) [] bytes in
  match snd r with
  | [] => fst r
  | remaining => fst r ++ [remaining]
  end.

(** The loop over [fragments] (lines 1247-1254): the last fragment is sent as
    [LAST_FRAGMENT], the others with [operation], which starts as
    [FIRST_FRAGMENT] and is [INTERMEDIATE_FRAGMENT] after the first send. *)
Fixpoint assign_operations
    (operation : Operation) (fragments : list (list octet))
    : list (Operation * list octet) :=
  match fragments with
  | [] => []
  | [f] => [(LAST_FRAGMENT, f)]
  | f :: rest => (operation, f) :: assign_operations INTERMEDIATE_FRAGMENT rest
  end.

(** The element-wise loop (lines 1256-1266) with its trailing
    [LAST_FRAGMENT] send; [sub_data_len] is a [uint16_t]. *)
Fixpoint split_by_element
    (limit : Z) (data sub_data : list GapData) (sub_data_len : Z)
    (operation : Operation) : list (Operation * list GapData) :=
  match data with
  | [] => [(LAST_FRAGMENT, sub_data)]
  | g :: rest =>
      if (sub_data_len + size g >? limit)%Z then
        (operation, sub_data)
          :: split_by_element limit rest [g] (to_uint16 (0 + size g))
               INTERMEDIATE_FRAGMENT
      else
        split_by_element limit rest (sub_data ++ [g])
          (to_uint16 (sub_data_len + size g)) operation
  end.


(* ===================================================================== *)
(** * 9. The manager's functions                                          *)
(* ===================================================================== *)

(** A call through [advertising_callbacks_] without a null check. *)
Definition unguarded_callback (e : Effect) : M unit :=
  let* registered := gets advertising_callbacks_ in
  if registered then emit e else emit NullCallbacksDereference.

Definition data_set_callback
    (set_scan_rsp : bool) (id : nat) (status : AdvertisingStatus) : Effect :=
  if set_scan_rsp then OnScanResponseDataSet id status
  else OnAdvertisingDataSet id status.

(** [check_advertising_data] (lines 1066-1088) *)
Definition check_advertising_data
    (le_maximum_advertising_data_length : Z)
    (data : list GapData) (include_flag : bool) : bool :=
  let data_len := data_len16 data in
  let data_len :=
    if include_flag && negb (data_has_flags data)
    then to_uint16 (data_len + kLenOfFlags) else data_len in
  negb (data_len >? le_maximum_advertising_data_length)%Z.

(** [check_chained_data] (lines 1581-1601) *)
Definition check_chained_data
    (env : Env) (data : list GapData) (include_flag : bool) : bool :=
  let data_len := data_len16 data in
  let data_len :=
    if include_flag && negb (data_has_flags data)
    then to_uint16 (data_len + kLenOfFlags) else data_len in
  (data_len >? kLeMaximumFragmentLength env)%Z.

(** The FLAGS element [set_data] and [set_enc_data] put in front of the
    advertising data of a connectable and discoverable set (lines 1124-1134,
    1734-1744); for scan-response data the map is not consulted. *)
Definition flags_element (a : Advertiser) : GapData :=
  mkGapData FLAGS
    [if (duration a =? 0)%Z then LE_GENERAL_DISCOVERABLE else LE_LIMITED_DISCOVERABLE].

Definition insert_flags
    (advertiser_id : nat) (set_scan_rsp : bool) (data : list GapData)
    : M (list GapData) :=
  if set_scan_rsp then ret data
  else
    let* a := sets_at advertiser_id in
    if connectable a && discoverable a && negb (data_has_flags data)
    then ret (flags_element a :: data)
    else ret data.

(** "Find and fill TX Power with the correct value" (lines 1137-1142):
    [gap_data.data_[0] = tx_power] on the first [TX_POWER_LEVEL] element
    (writing [data_[0]] of an empty value is not defined in C++; here it leaves
    the element as it is). *)
Definition set_first (b : octet) (l : list octet) : list octet :=
  match l with
  | [] => []
  | _ :: t => b :: t
  end.

Fixpoint patch_tx_power (tx : Z) (data : list GapData) : list GapData :=
  match data with
  | [] => []
  | g :: rest =>
      if (data_type_ g =? TX_POWER_LEVEL)%Z
      then mkGapData (data_type_ g) (set_first (to_uint8 tx) (data_ g)) :: rest
      else g :: patch_tx_power tx rest
  end.

Definition fill_tx_power (advertiser_id : nat) (data : list GapData)
    : M (list GapData) :=
  if existsb (fun g => (data_type_ g =? TX_POWER_LEVEL)%Z) data then
    let* a := sets_at advertiser_id in
    ret (patch_tx_power (tx_power a) data)
  else ret data.

Definition is_final (operation : Operation) : bool :=
  bool_decide (operation = COMPLETE_ADVERTISEMENT)
  || bool_decide (operation = LAST_FRAGMENT).

(** [send_data_fragment] (lines 1273-1334) *)
Definition send_data_fragment
    (env : Env) (advertiser_id : nat) (set_scan_rsp : bool)
    (data : list GapData) (operation : Operation) : M unit :=
  if divide_long_single_gap_data env then
    let send_callback := is_final operation in
    if set_scan_rsp then
      enqueue (LeSetExtendedScanResponseData advertiser_id operation data)
        (check_status_with_id send_callback advertiser_id)
    else
      enqueue (LeSetExtendedAdvertisingData advertiser_id operation data)
        (check_status_with_id send_callback advertiser_id)
  else if is_final operation then
    if set_scan_rsp then
      enqueue (LeSetExtendedScanResponseData advertiser_id operation data)
        (check_status_with_id true advertiser_id)
    else
      enqueue (LeSetExtendedAdvertisingData advertiser_id operation data)
        (check_status_with_id true advertiser_id)
  else
    if set_scan_rsp then
      enqueue (LeSetExtendedScanResponseData advertiser_id operation data)
        check_complete
    else
      enqueue (LeSetExtendedAdvertisingData advertiser_id operation data)
        check_complete.

(** [send_data_fragment_with_raw_builder] (lines 1336-1363) *)
Definition send_data_fragment_with_raw_builder
    (advertiser_id : nat) (set_scan_rsp : bool)
    (data : list octet) (operation : Operation) : M unit :=
  let send_callback := is_final operation in
  if set_scan_rsp then
    enqueue (LeSetExtendedScanResponseDataRaw advertiser_id operation data)
      (check_status_with_id send_callback advertiser_id)
  else
    enqueue (LeSetExtendedAdvertisingDataRaw advertiser_id operation data)
      (check_status_with_id send_callback advertiser_id).

(** "check data size": is some element longer than [data_limit]?  (The loop
    returns at the first such element; [data_len] is used only when there is
    none.) *)
Definition has_oversized (data_limit : Z) (data : list GapData) : bool :=
  existsb (fun g => (size g >? data_limit)%Z) data.

(** [set_data] (lines 1121-1271) *)
Definition set_data
    (env : Env) (advertiser_id : nat) (set_scan_rsp : bool)
    (data : list GapData) : M unit :=
  let* data := insert_flags advertiser_id set_scan_rsp data in
  let* data := fill_tx_power advertiser_id data in
  let* api := gets advertising_api_type_ in
  let* le_max := gets le_maximum_advertising_data_length_ in
  if negb (bool_decide (api = EXTENDED))
     && negb (check_advertising_data le_max data false)
  then unguarded_callback (data_set_callback set_scan_rsp advertiser_id DATA_TOO_LARGE)
  else
  match api with
  | LEGACY =>
      if set_scan_rsp then
        enqueue (LeSetScanResponseData data) (check_status_with_id true advertiser_id)
      else
        enqueue (LeSetAdvertisingData data) (check_status_with_id true advertiser_id)
  | ANDROID_HCI =>
      if set_scan_rsp then
        enqueue (LeMultiAdvtSetScanResp data advertiser_id)
          (check_status_with_id true advertiser_id)
      else
        enqueue (LeMultiAdvtSetData data advertiser_id)
          (check_status_with_id true advertiser_id)
  | EXTENDED =>
      let divide_gap_flag := divide_long_single_gap_data env in
      let data_limit :=
        if divide_gap_flag then kLeMaximumGapDataLength env
        else kLeMaximumFragmentLength env in
      if has_oversized data_limit data then
        guarded_callback (data_set_callback set_scan_rsp advertiser_id INTERNAL_ERROR)
      else
      let data_len := data_len16 data in
      let* maxDataLength :=
        (if ble_check_data_length_on_legacy_advertising env then
           let* a := sets_at advertiser_id in
           ret (if is_legacy a then kLeMaximumLegacyAdvertisingDataLength env
                else le_max)
         else ret le_max) in
      if (data_len >? maxDataLength)%Z then
        guarded_callback (data_set_callback set_scan_rsp advertiser_id DATA_TOO_LARGE)
      else if (data_len <=? kLeMaximumFragmentLength env)%Z then
        send_data_fragment env advertiser_id set_scan_rsp data COMPLETE_ADVERTISEMENT
      else if divide_gap_flag then
        for_each
          (fun f => send_data_fragment_with_raw_builder
                      advertiser_id set_scan_rsp (snd f) (fst f))
          (assign_operations FIRST_FRAGMENT
             (FragmentingInserter (kLeMaximumFragmentLength env) (serialize data)))
      else
        for_each
          (fun f => send_data_fragment env advertiser_id set_scan_rsp (snd f) (fst f))
          (split_by_element (kLeMaximumFragmentLength env) data [] 0 FIRST_FRAGMENT)
  end.

(** [enable_advertiser] (lines 1365-1430) *)
Definition enable_advertiser
    (advertiser_id : nat) (enable : bool)
    (duration max_extended_advertising_events : Z) : M unit :=
  let curr_set :=
    mkEnabledSet advertiser_id duration max_extended_advertising_events in
  let enabled_sets := [curr_set] in
  let enable_value := if enable then ENABLED else DISABLED in
  let* present := sets_count advertiser_id in
  if negb present then skip
  else
    let* api := gets advertising_api_type_ in
    match api with
    | LEGACY =>
        enqueue (LeSetAdvertisingEnable enable_value)
          (on_set_advertising_enable_complete enable enabled_sets true)
    | ANDROID_HCI =>
        enqueue (LeMultiAdvtSetEnable enable_value advertiser_id)
          (on_set_advertising_enable_complete enable enabled_sets true)
    | EXTENDED =>
        enqueue (LeSetExtendedAdvertisingEnable enable_value enabled_sets)
          (on_set_extended_advertising_enable_complete enable enabled_sets true)
    end ;;;
    if enable then
      enabled_update advertiser_id
        (fun s => mkEnabledSet advertiser_id (duration_ s)
                    (max_extended_advertising_events_ s)) ;;;
      (if bool_decide (api = EXTENDED) then
         enabled_update advertiser_id
           (fun s => mkEnabledSet (advertising_handle_ s) duration
                       max_extended_advertising_events)
       else skip) ;;;
      sets_update advertiser_id
        (with_duration duration max_extended_advertising_events)
    else
      enabled_update advertiser_id
        (fun s => mkEnabledSet kInvalidHandle (duration_ s)
                    (max_extended_advertising_events_ s)) ;;;
      let* a := sets_at advertiser_id in
      if address_rotation_alarm a then
        emit (AlarmCancel advertiser_id) ;;;
        sets_update advertiser_id (with_address_rotation_alarm false)
      else skip.

(** [enable_periodic_advertising] (lines 1564-1579) *)
Definition enable_periodic_advertising
    (env : Env) (advertiser_id : nat) (enable include_adi : bool) : M unit :=
  if negb (SupportsBlePeriodicAdvertising env) then skip
  else
    let include_adi :=
      if include_adi && negb (SupportsBlePeriodicAdvertisingAdi env)
      then false else include_adi in
    enqueue (LeSetPeriodicAdvertisingEnable enable include_adi advertiser_id)
      (on_set_periodic_advertising_enable_complete enable advertiser_id).

(** [send_periodic_data_fragment] (lines 1519-1547) *)
Definition send_periodic_data_fragment
    (env : Env) (advertiser_id : nat)
    (data : list GapData) (operation : Operation) : M unit :=
  if divide_long_single_gap_data env then
    enqueue (LeSetPeriodicAdvertisingData advertiser_id operation data)
      (check_status_with_id (is_final operation) advertiser_id)
  else if is_final operation then
    enqueue (LeSetPeriodicAdvertisingData advertiser_id operation data)
      (check_status_with_id true advertiser_id)
  else
    enqueue (LeSetPeriodicAdvertisingData advertiser_id operation data)
      check_complete.

(** [send_periodic_data_fragment_with_raw_builder] (lines 1549-1562) *)
Definition send_periodic_data_fragment_with_raw_builder
    (advertiser_id : nat) (data : list octet) (operation : Operation) : M unit :=
  enqueue (LeSetPeriodicAdvertisingDataRaw advertiser_id operation data)
    (check_status_with_id (is_final operation) advertiser_id).

(** The tail of [encrypted_advertising_complete] (lines 2424-2436) and the
    analogous bookkeeping: a set that has not started yet is enabled, or, while
    paused, only recorded as enabled. *)
Definition enable_if_not_started (advertiser_id : nat) : M unit :=
  let* adv_inst := sets_at advertiser_id in
  if negb (started adv_inst) then
    let* p := gets paused in
    if negb p then
      enable_advertiser advertiser_id true (duration adv_inst)
        (max_extended_advertising_events adv_inst)
    else
      enabled_update advertiser_id
        (fun _ => mkEnabledSet advertiser_id (duration adv_inst)
                    (max_extended_advertising_events adv_inst))
  else skip.

(** [encrypted_advertising_complete] (lines 2274-2437) *)
Definition encrypted_advertising_complete
    (env : Env) (advertiser_id : nat) (set_scan_rsp : bool)
    (data data_encrypt : list GapData) : M unit :=
  let* data := seal_and_append env advertiser_id data data_encrypt in
  let* api := gets advertising_api_type_ in
  let* le_max := gets le_maximum_advertising_data_length_ in
  if negb (bool_decide (api = EXTENDED))
     && negb (check_advertising_data le_max data false)
  then unguarded_callback (data_set_callback set_scan_rsp advertiser_id DATA_TOO_LARGE)
  else
  match api with
  | LEGACY =>
      (if set_scan_rsp then
         enqueue (LeSetScanResponseData data) (check_status_with_id true advertiser_id)
       else
         enqueue (LeSetAdvertisingData data) (check_status_with_id true advertiser_id)) ;;;
      enable_if_not_started advertiser_id
  | ANDROID_HCI =>
      (if set_scan_rsp then
         enqueue (LeMultiAdvtSetScanResp data advertiser_id)
           (check_status_with_id true advertiser_id)
       else
         enqueue (LeMultiAdvtSetData data advertiser_id)
           (check_status_with_id true advertiser_id)) ;;;
      enable_if_not_started advertiser_id
  | EXTENDED =>
      if has_oversized (kLeMaximumGapDataLength env) data then
        guarded_callback (data_set_callback set_scan_rsp advertiser_id INTERNAL_ERROR)
      else
      let data_len := data_len16 data in
      if (data_len >? le_max)%Z then
        guarded_callback (data_set_callback set_scan_rsp advertiser_id DATA_TOO_LARGE)
      else
        (if (data_len <=? kLeMaximumFragmentLength env)%Z then
           send_data_fragment env advertiser_id set_scan_rsp data COMPLETE_ADVERTISEMENT
         else
           let* adv_inst := sets_at advertiser_id in
           let enabled_sets :=
             [mkEnabledSet advertiser_id (duration adv_inst)
                (max_extended_advertising_events adv_inst)] in
           let chained :=
             check_chained_data env data
               (connectable adv_inst && discoverable adv_inst) in
           (if chained && started adv_inst then
              enqueue (LeSetExtendedAdvertisingEnable DISABLED enabled_sets)
                check_complete
            else skip) ;;;
           for_each
             (fun f => send_data_fragment env advertiser_id set_scan_rsp (snd f) (fst f))
             (split_by_element (kLeMaximumFragmentLength env) data [] 0 FIRST_FRAGMENT) ;;;
           (if chained && started adv_inst then
              enqueue (LeSetExtendedAdvertisingEnable ENABLED enabled_sets)
                check_complete
            else skip)) ;;;
        enable_if_not_started advertiser_id
  end.

(** [set_enc_data] (lines 1683-1900) *)
Definition set_enc_data
    (env : Env) (advertiser_id : nat) (set_scan_rsp : bool)
    (data data_encrypt : list GapData) : M unit :=
  (if negb set_scan_rsp then
     sets_update advertiser_id (with_advertisement data data_encrypt)
   else
     sets_update advertiser_id (with_scan_response data data_encrypt)) ;;;
  let* data := insert_flags advertiser_id set_scan_rsp data in
  let* data := fill_tx_power advertiser_id data in
  let* data_encrypt := fill_tx_power advertiser_id data_encrypt in
  if negb (bool_decide (data_encrypt = [])) then
    encrypted_advertising_complete env advertiser_id set_scan_rsp data data_encrypt
  else
  let* api := gets advertising_api_type_ in
  let* le_max := gets le_maximum_advertising_data_length_ in
  if negb (bool_decide (api = EXTENDED))
     && negb (check_advertising_data le_max data false)
  then unguarded_callback (data_set_callback set_scan_rsp advertiser_id DATA_TOO_LARGE)
  else
  match api with
  | LEGACY =>
      if set_scan_rsp then
        enqueue (LeSetScanResponseData data) (check_status_with_id true advertiser_id)
      else
        enqueue (LeSetAdvertisingData data) (check_status_with_id true advertiser_id)
  | ANDROID_HCI =>
      if set_scan_rsp then
        enqueue (LeMultiAdvtSetScanResp data advertiser_id)
          (check_status_with_id true advertiser_id)
      else
        enqueue (LeMultiAdvtSetData data advertiser_id)
          (check_status_with_id true advertiser_id)
  | EXTENDED =>
      if has_oversized (kLeMaximumGapDataLength env) data then
        guarded_callback (data_set_callback set_scan_rsp advertiser_id INTERNAL_ERROR)
      else
      let data_len := data_len16 data in
      if (data_len >? le_max)%Z then
        guarded_callback (data_set_callback set_scan_rsp advertiser_id DATA_TOO_LARGE)
      else if (data_len <=? kLeMaximumFragmentLength env)%Z then
        send_data_fragment env advertiser_id set_scan_rsp data COMPLETE_ADVERTISEMENT
      else
        let* adv_inst := sets_at advertiser_id in
        let enabled_sets :=
          [mkEnabledSet advertiser_id (duration adv_inst)
             (max_extended_advertising_events adv_inst)] in
        let chained :=
          check_chained_data env data
            (connectable adv_inst && discoverable adv_inst) in
        (if chained && started adv_inst then
           enqueue (LeSetExtendedAdvertisingEnable DISABLED enabled_sets)
             check_complete
         else skip) ;;;
        for_each
          (fun f => send_data_fragment_with_raw_builder
                      advertiser_id set_scan_rsp (snd f) (fst f))
          (assign_operations FIRST_FRAGMENT
             (FragmentingInserter (kLeMaximumFragmentLength env) (serialize data))) ;;;
        (if chained && started adv_inst then
           enqueue (LeSetExtendedAdvertisingEnable ENABLED enabled_sets)
             check_complete
         else skip)
  end.

(** [encrypted_periodic_advertising_complete] (lines 2193-2272) *)
Definition encrypted_periodic_advertising_complete
    (env : Env) (advertiser_id : nat)
    (data data_encrypt : list GapData) : M unit :=
  let* data := seal_and_append env advertiser_id data data_encrypt in
  if has_oversized (kLeMaximumGapDataLength env) data then
    guarded_callback (OnPeriodicAdvertisingDataSet advertiser_id INTERNAL_ERROR)
  else
  let data_len := data_len16 data in
  let* le_max := gets le_maximum_advertising_data_length_ in
  if (data_len >? le_max)%Z then
    guarded_callback (OnPeriodicAdvertisingDataSet advertiser_id DATA_TOO_LARGE)
  else
    (if (data_len <=? kLeMaximumFragmentLength env)%Z then
       send_periodic_data_fragment env advertiser_id data COMPLETE_ADVERTISEMENT
     else
       let* adv_inst := sets_at advertiser_id in
       (if started adv_inst then
          enable_periodic_advertising env advertiser_id false (include_adi adv_inst)
        else skip) ;;;
       for_each
         (fun f => send_periodic_data_fragment env advertiser_id (snd f) (fst f))
         (split_by_element (kLeMaximumFragmentLength env) data [] 0 FIRST_FRAGMENT) ;;;
       (if started adv_inst then
          enable_periodic_advertising env advertiser_id true (include_adi adv_inst)
        else skip)) ;;;
    let* adv_inst := sets_at advertiser_id in
    if negb (started adv_inst) then
      enable_periodic_advertising env advertiser_id true (include_adi adv_inst)
    else skip.

(** [set_periodic_enc_data] (lines 1902-1992) *)
Definition set_periodic_enc_data
    (env : Env) (advertiser_id : nat)
    (data data_encrypt : list GapData) : M unit :=
  sets_update advertiser_id (with_periodic_data data data_encrypt) ;;;
  if negb (bool_decide (data_encrypt = [])) then
    encrypted_periodic_advertising_complete env advertiser_id data data_encrypt
  else
  let divide_gap_flag := divide_long_single_gap_data env in
  let data_limit :=
    if divide_gap_flag then kLeMaximumGapDataLength env
    else kLeMaximumFragmentLength env in
  if has_oversized data_limit data then
    guarded_callback (OnPeriodicAdvertisingDataSet advertiser_id INTERNAL_ERROR)
  else
  let data_len := data_len16 data in
  let* le_max := gets le_maximum_advertising_data_length_ in
  if (data_len >? le_max)%Z then
    guarded_callback (OnPeriodicAdvertisingDataSet advertiser_id DATA_TOO_LARGE)
  else
  let data_fragment_limit :=
    if divide_gap_flag then kLeMaximumPeriodicDataFragmentLength env
    else kLeMaximumFragmentLength env in
  if (data_len <=? data_fragment_limit)%Z then
    send_periodic_data_fragment env advertiser_id data COMPLETE_ADVERTISEMENT
  else if divide_gap_flag then
    for_each
      (fun f => send_periodic_data_fragment_with_raw_builder
                  advertiser_id (snd f) (fst f))
      (assign_operations FIRST_FRAGMENT
         (FragmentingInserter (kLeMaximumPeriodicDataFragmentLength env)
            (serialize data)))
  else
    for_each
      (fun f => send_periodic_data_fragment env advertiser_id (snd f) (fst f))
      (split_by_element (kLeMaximumFragmentLength env) data [] 0 FIRST_FRAGMENT).

(** [set_encrypted_advertiser_data] (lines 827-848); [adv_inst] is a pointer
    into the map, so each argument is read when its call is made. *)
Definition set_encrypted_advertiser_data (env : Env) (advertiser_id : nat) : M unit :=
  let* adv_inst := sets_at advertiser_id in
  if negb (bool_decide (advertisement_enc adv_inst = [])) then
    set_enc_data env advertiser_id false
      (advertisement adv_inst) (advertisement_enc adv_inst) ;;;
    let* adv_inst := sets_at advertiser_id in
    set_enc_data env advertiser_id true
      (scan_response adv_inst) (scan_response_enc adv_inst) ;;;
    let* adv_inst := sets_at advertiser_id in
    if negb (bool_decide (periodic_data_enc adv_inst = [])) then
      set_periodic_enc_data env advertiser_id
        (periodic_data adv_inst) (periodic_data_enc adv_inst)
    else skip
  else if negb (bool_decide (scan_response_enc adv_inst = [])) then
    set_enc_data env advertiser_id true
      (scan_response adv_inst) (scan_response_enc adv_inst)
  else if negb (bool_decide (periodic_data_enc adv_inst = [])) then
    set_periodic_enc_data env advertiser_id
      (periodic_data adv_inst) (periodic_data_enc adv_inst)
  else skip.

(** [new_advertiser_address] (lines 459-480) *)
Definition new_advertiser_address (env : Env) (id : nat) : M AddressWithType :=
  let* a := sets_at id in
  match address_type a with
  | PUBLIC =>
      if bool_decide (GetAddressPolicy env = USE_STATIC_ADDRESS)
      then ret (GetInitiatorAddress env)
      else ret (mkAddressWithType (GetMacAddress env) PUBLIC_DEVICE_ADDRESS)
  | RESOLVABLE_RANDOM =>
      let* api := gets advertising_api_type_ in
      if bool_decide (api = LEGACY) then ret (GetInitiatorAddress env)
      else
        let* n := draw in
        ret (NewResolvableAddress env n)
  | NONRESOLVABLE_RANDOM =>
      let* n := draw in
      ret (NewNonResolvableAddress env n)
  end.

(** [rotate_advertiser_address] (lines 850-861) *)
Definition rotate_advertiser_address (env : Env) (advertiser_id : nat) : M unit :=
  let* api := gets advertising_api_type_ in
  if bool_decide (api = EXTENDED) then
    let* address_with_type := new_advertiser_address env advertiser_id in
    enqueue
      (LeSetAdvertisingSetRandomAddress advertiser_id (GetAddress address_with_type))
      (on_set_advertising_set_random_address_complete advertiser_id address_with_type)
  else skip.

(** [address_rotation_alarm->Schedule(..., GetNextPrivateAddressIntervalMs())]
    on the advertiser's alarm. *)
Definition schedule_rotation_alarm (env : Env) (advertiser_id : nat) : M unit :=
  let* a := sets_at advertiser_id in
  if address_rotation_alarm a then
    let* n := draw in
    emit (AlarmSchedule advertiser_id (GetNextPrivateAddressIntervalMs env n))
  else emit (NullAlarmDereference advertiser_id).

(** [address_rotation_alarm->Cancel(); address_rotation_alarm.reset();] under
    [if (address_rotation_alarm != nullptr)]. *)
Definition drop_rotation_alarm (advertiser_id : nat) : M unit :=
  let* a := sets_at advertiser_id in
  if address_rotation_alarm a then
    emit (AlarmCancel advertiser_id) ;;;
    sets_update advertiser_id (with_address_rotation_alarm false)
  else skip.

(** [set_advertising_set_random_address_on_timer] (lines 863-906);
    [kEncryptedAdvertisingDataSupported] is [true]. *)
Definition set_advertising_set_random_address_on_timer
    (env : Env) (advertiser_id : nat) : M unit :=
  let* es := enabled_at advertiser_id in
  if bool_decide (advertising_handle_ es = kInvalidHandle) then
    drop_rotation_alarm advertiser_id
  else
    let* a := sets_at advertiser_id in
    let enabled_sets :=
      [mkEnabledSet advertiser_id (duration a) (max_extended_advertising_events a)] in
    let* a := sets_at advertiser_id in
    (if connectable a then
       enqueue (LeSetExtendedAdvertisingEnable DISABLED enabled_sets) check_complete
     else skip) ;;;
    rotate_advertiser_address env advertiser_id ;;;
    set_encrypted_advertiser_data env advertiser_id ;;;
    let* a := sets_at advertiser_id in
    let* p := gets paused in
    (if connectable a && negb p then
       enqueue (LeSetExtendedAdvertisingEnable ENABLED enabled_sets) check_complete
     else skip) ;;;
    schedule_rotation_alarm env advertiser_id.

(** [LeAdvertisingSetTerminatedView] *)
Record LeAdvertisingSetTerminatedView := mkSetTerminated {
  IsValid : bool;
  GetStatus : ErrorCode;
  GetAdvertisingHandle : nat;
  GetConnectionHandle : Z;
}.

(** [handle_set_terminated] (lines 331-396) *)
Definition handle_set_terminated
    (env : Env) (event_view : LeAdvertisingSetTerminatedView) : M unit :=
  if negb (IsValid event_view) then skip
  else
  let status := GetStatus event_view in
  if bool_decide (status = OPERATION_CANCELLED_BY_HOST) then skip
  else
  let advertiser_id := GetAdvertisingHandle event_view in
  let* a := sets_at advertiser_id in
  let was_rotating_address := address_rotation_alarm a in
  drop_rotation_alarm advertiser_id ;;;
  enabled_update advertiser_id
    (fun s => mkEnabledSet kInvalidHandle (duration_ s)
                (max_extended_advertising_events_ s)) ;;;
  let* a := sets_at advertiser_id in
  emit (AclOnAdvertisingSetTerminated status (GetConnectionHandle event_view)
          advertiser_id (current_address a) (discoverable a)) ;;;
  if bool_decide (status = LIMIT_REACHED) || bool_decide (status = ADVERTISING_TIMEOUT)
  then
    let* reg_id := id_map_at advertiser_id in
    if (reg_id =? kIdLocal)%Z then
      let* a := sets_at advertiser_id in
      if timeout_callback a then
        emit (RunTimeoutCallback advertiser_id status) ;;;
        sets_update advertiser_id (with_timeout_callback false)
      else skip
    else unguarded_callback (OnAdvertisingEnabled advertiser_id false status)
  else
    let* a := sets_at advertiser_id in
    if negb (directed a) then
      if (duration a =? 0)%Z && (max_extended_advertising_events a =? 0)%Z then
        (if was_rotating_address then
           sets_update advertiser_id (with_address_rotation_alarm true) ;;;
           schedule_rotation_alarm env advertiser_id
         else skip) ;;;
        enable_advertiser advertiser_id true 0 0
      else skip
    else skip.

End Manager.

(* ===================================================================== *)
(** * 10. Classic power manager: data                                      *)
(* ===================================================================== *)

Module PowerManager.
Import Monad.

Definition RawAddress := Z.

(** [tBTA_SYS_CONN_STATUS] ([bta_sys.h]); it indexes [actn_tbl]. *)
Inductive tBTA_SYS_CONN_STATUS :=
  | BTA_SYS_CONN_OPEN
  | BTA_SYS_CONN_CLOSE
  | BTA_SYS_APP_OPEN
  | BTA_SYS_APP_CLOSE
  | BTA_SYS_SCO_OPEN
  | BTA_SYS_SCO_CLOSE
  | BTA_SYS_CONN_IDLE
  | BTA_SYS_CONN_BUSY
  | BTA_SYS_ROLE_CHANGE.

(** [tBTA_DM_PM_REQ] *)
Inductive tBTA_DM_PM_REQ :=
  | BTA_DM_PM_NEW_REQ
  | BTA_DM_PM_RESTART
  | BTA_DM_PM_EXECUTE.

(** [tBTM_PM_MODE] / [tBTM_PM_STATUS] *)
Inductive tBTM_PM_STATUS :=
  | BTM_PM_STS_ACTIVE
  | BTM_PM_STS_HOLD
  | BTM_PM_STS_SNIFF
  | BTM_PM_STS_PARK
  | BTM_PM_STS_SSR
  | BTM_PM_STS_PENDING
  | BTM_PM_STS_ERROR.

(** [tBTM_STATUS], as far as the power manager tells the values apart. *)
Inductive tBTM_STATUS :=
  | BTM_SUCCESS
  | BTM_CMD_STARTED
  | BTM_CMD_STORED
  | BTM_OTHER_STATUS.

#[global] Instance tBTA_SYS_CONN_STATUS_eq_dec : EqDecision tBTA_SYS_CONN_STATUS.
Proof. solve_decision. Defined.
#[global] Instance tBTA_DM_PM_REQ_eq_dec : EqDecision tBTA_DM_PM_REQ.
Proof. solve_decision. Defined.
#[global] Instance tBTM_PM_STATUS_eq_dec : EqDecision tBTM_PM_STATUS.
Proof. solve_decision. Defined.
#[global] Instance tBTM_STATUS_eq_dec : EqDecision tBTM_STATUS.
Proof. solve_decision. Defined.

(** "0 which is BTA_DM_PM_NO_ACTION" (line 582). *)
Definition BTA_DM_PM_NO_ACTION : Z := 0.

(** Three power-mode timers per slot. *)
Definition BTA_DM_PM_MODE_TIMER_MAX : nat := 3.

(** Indices into [p_bta_dm_ssr_spec]; [BTA_DM_PM_SSR_HH] is [BTA_DM_PM_SSR1]
    (line 64). *)
Definition BTA_DM_PM_SSR0 : nat := 0.
Definition BTA_DM_PM_SSR1 : nat := 1.
Definition BTA_DM_PM_SSR4 : nat := 4.
Definition BTA_DM_PM_SSR_HH : nat := BTA_DM_PM_SSR1.

(** [tBTA_DM_PM_ACTN] *)
Module Actn.
Record t := mk { power_mode : Z; timeout : Z }.
End Actn.

(** [tBTA_DM_PM_SPEC] *)
Module Spec.
Record t := mk {
  allow_mask : Z;
  ssr : nat;
  actn_tbl : tBTA_SYS_CONN_STATUS -> Actn.t;
}.
End Spec.

(** [tBTA_DM_PM_CFG] *)
Module Cfg.
Record t := mk { id : Z; app_id : Z; spec_idx : nat }.
End Cfg.

(** [tBTA_DM_SSR_SPEC] *)
Module Ssr.
Record t := mk { max_lat : Z; min_rmt_to : Z; min_loc_to : Z }.
Definition zero : t := mk 0 0 0.
End Ssr.

(** [tBTA_DM_SRVCS]: one entry of [bta_dm_conn_srvcs.conn_srvc]. *)
Module Srvc.
Record t := mk {
  id : Z;
  app_id : Z;
  new_request : bool;
  state : tBTA_SYS_CONN_STATUS;
  peer_bdaddr : RawAddress;
}.
Definition with_new_request (b : bool) (s : t) : t :=
  mk (id s) (app_id s) b (state s) (peer_bdaddr s).
Definition with_state (v : tBTA_SYS_CONN_STATUS) (s : t) : t :=
  mk (id s) (app_id s) (new_request s) v (peer_bdaddr s).
End Srvc.

(** [tBTA_DM_PEER_DEVICE], the fields the power manager uses. *)
Module Dev.
Record t := mk {
  peer_bdaddr : RawAddress;
  info : Z;
  pm_mode_attempted : Z;
  pm_mode_failed : Z;
  prev_low : tBTM_PM_STATUS;
}.
Definition with_info (v : Z) (d : t) : t :=
  mk (peer_bdaddr d) v (pm_mode_attempted d) (pm_mode_failed d) (prev_low d).
Definition with_pm_mode_attempted (v : Z) (d : t) : t :=
  mk (peer_bdaddr d) (info d) v (pm_mode_failed d) (prev_low d).
Definition with_pm_mode_failed (v : Z) (d : t) : t :=
  mk (peer_bdaddr d) (info d) (pm_mode_attempted d) v (prev_low d).
Definition with_prev_low (v : tBTM_PM_STATUS) (d : t) : t :=
  mk (peer_bdaddr d) (info d) (pm_mode_attempted d) (pm_mode_failed d) v.
End Dev.

(** [tBTA_PM_TIMER]: one slot of [bta_dm_cb.pm_timer].  [active] is a
    [uint8_t]; the arrays have [BTA_DM_PM_MODE_TIMER_MAX] cells; [timer] holds,
    for each alarm of the slot, whether it is scheduled. *)
Module Timer.
Record t := mk {
  in_use : bool;
  active : Z;
  peer_bdaddr : RawAddress;
  srvc_id : list Z;
  pm_action : list Z;
  timer : list bool;
}.
End Timer.

(** What the power manager asks of the stack below and of the alarm service. *)
Inductive PowerModeRequest :=
  | PM_PARK
  | PM_SNIFF (index : Z) (force : bool)
  | PM_ACTIVE.

Inductive Effect :=
  | BTM_SetSsrParams (peer_addr : RawAddress) (max_lat min_rmt_to min_loc_to : Z)
  | BTM_SetPowerMode (peer_addr : RawAddress) (request : PowerModeRequest)
  | alarm_set_on_mloop (slot timer_idx : nat) (timeout_ms : Z)
  | alarm_cancel (slot timer_idx : nat)
  | post_bta_dm_pm_timer (peer_addr : RawAddress) (pm_request : Z)
  | AssertFailed.

(** The configuration tables ([bta_dm_cfg.cc]), the constants of [bta_api.h],
    [bta_dm_int.h] and [bta_sys.h], and the calls into the stack whose results
    the power manager only reads.  None of them is among the sources, so all
    are parameters.  [p_bta_dm_pm_cfg 0] carries the number of entries in its
    [app_id]. *)
Record Env := mkEnv {
  p_bta_dm_pm_cfg : nat -> Cfg.t;
  get_bta_dm_pm_spec : nat -> Spec.t;
  BTA_DM_PM_NO_PREF : Z;
  BTA_DM_PM_SUSPEND : Z;
  BTA_DM_PM_PARK : Z;
  BTA_DM_PM_SNIFF : Z;
  BTA_DM_PM_ACTIVE : Z;
  BTA_DM_PM_SUSPEND_TIMER_IDX : nat;
  BTA_DM_PM_PARK_TIMER_IDX : nat;
  BTA_DM_PM_SNIFF_TIMER_IDX : nat;
  BTA_DM_NUM_PM_TIMER : nat;
  BTA_DM_NUM_CONN_SRVS : nat;
  BTA_ID_MAX : Z;
  BTA_ID_AV : Z;
  BTA_ID_AG : Z;
  BTA_ALL_APP_ID : Z;
  BTA_DM_DI_INT_SNIFF : Z;
  BTA_DM_DI_ACP_SNIFF : Z;
  BTA_DM_DI_SET_SNIFF : Z;
  BTA_DM_DI_USE_SSR : Z;
  supports_sniff_subrating : bool;
  BTM_ReadRemoteFeatures : RawAddress -> option bool;
  BTM_ReadPowerMode : RawAddress -> option tBTM_PM_STATUS;
  BTM_SetPowerMode_status : RawAddress -> PowerModeRequest -> tBTM_STATUS;
  BTM_is_sniff_allowed_for : RawAddress -> bool;
  bta_hh_read_ssr_param : RawAddress -> option (Z * Z);
  alarm_get_remaining_ms : nat -> nat -> Z;
}.

(** [bta_dm_conn_srvcs] (the first [count] cells of [conn_srvc]), the device
    list and the timer bank of [bta_dm_cb], and [p_bta_dm_ssr_spec], which
    [bta_dm_pm_ssr] writes for the HID entry. *)
Record cb := mkCb {
  conn_srvc : list Srvc.t;
  peer_device : list Dev.t;
  pm_timer : list Timer.t;
  p_bta_dm_ssr_spec : list Ssr.t;
}.

Definition with_conn_srvc (v : list Srvc.t) (c : cb) : cb :=
  mkCb v (peer_device c) (pm_timer c) (p_bta_dm_ssr_spec c).
Definition with_peer_device (v : list Dev.t) (c : cb) : cb :=
  mkCb (conn_srvc c) v (pm_timer c) (p_bta_dm_ssr_spec c).
Definition with_pm_timer (v : list Timer.t) (c : cb) : cb :=
  mkCb (conn_srvc c) (peer_device c) v (p_bta_dm_ssr_spec c).
Definition with_ssr_spec (v : list Ssr.t) (c : cb) : cb :=
  mkCb (conn_srvc c) (peer_device c) (pm_timer c) v.

(** Computations of the power manager. *)
Abbreviation PM := (Monad.M cb Effect).

(** A slot as [bta_dm_init_pm] leaves it (lines 102-105) in the zeroed
    control block. *)
Definition Timer_init (env : Env) : Timer.t :=
  Timer.mk false 0%Z 0%Z
    (repeat (BTA_ID_MAX env) BTA_DM_PM_MODE_TIMER_MAX)
    (repeat BTA_DM_PM_NO_ACTION BTA_DM_PM_MODE_TIMER_MAX)
    (repeat false BTA_DM_PM_MODE_TIMER_MAX).

(** Array cells. *)
Definition cell {A} (d : A) (l : list A) (j : nat) : A := default d (l !! j).

Definition timer_at (env : Env) (i : nat) : PM Timer.t :=
  gets (fun c => cell (Timer_init env) (pm_timer c) i).

Definition timer_update (env : Env) (i : nat) (f : Timer.t -> Timer.t) : PM unit :=
  modify (fun c =>
    with_pm_timer
      (<[i := f (cell (Timer_init env) (pm_timer c) i)]> (pm_timer c)) c).

(* ===================================================================== *)
(** * 11. Classic power manager: the timer bank                            *)
(* ===================================================================== *)

(** [bta_pm_action_to_timer_idx] (lines 199-209) *)
Definition bta_pm_action_to_timer_idx (env : Env) (pm_action : Z) : nat :=
  if (pm_action =? BTA_DM_PM_SUSPEND env)%Z then BTA_DM_PM_SUSPEND_TIMER_IDX env
  else if (pm_action =? BTA_DM_PM_PARK env)%Z then BTA_DM_PM_PARK_TIMER_IDX env
  else if (Z.land pm_action (BTA_DM_PM_SNIFF env) =? BTA_DM_PM_SNIFF env)%Z
  then BTA_DM_PM_SNIFF_TIMER_IDX env
  else BTA_DM_PM_MODE_TIMER_MAX.

(** [bta_dm_pm_start_timer] (lines 280-297), on slot [bta_dm_cb.pm_timer[i]]. *)
Definition start_timer_slot
    (env : Env) (timer_idx : nat) (srvc_id pm_action : Z) (p : Timer.t) : Timer.t :=
  let active :=
    if (cell (BTA_ID_MAX env) (Timer.srvc_id p) timer_idx =? BTA_ID_MAX env)%Z
    then ((Timer.active p + 1) mod 256)%Z else Timer.active p in
  let actions :=
    if (cell BTA_DM_PM_NO_ACTION (Timer.pm_action p) timer_idx <? pm_action)%Z
    then <[timer_idx := pm_action]> (Timer.pm_action p) else Timer.pm_action p in
  Timer.mk true active (Timer.peer_bdaddr p)
    (<[timer_idx := srvc_id]> (Timer.srvc_id p)) actions
    (<[timer_idx := true]> (Timer.timer p)).

Definition bta_dm_pm_start_timer
    (env : Env) (i timer_idx : nat) (timeout_ms : Z) (srvc_id pm_action : Z)
    : PM unit :=
  timer_update env i (start_timer_slot env timer_idx srvc_id pm_action) ;;;
  emit (alarm_set_on_mloop i timer_idx timeout_ms).

(** [bta_dm_pm_stop_timer_by_index] (lines 309-332), on slot
    [bta_dm_cb.pm_timer[i]]; a failing [ASSERT_LOG] ends the call. *)
Definition stop_timer_slot (env : Env) (timer_idx : nat) (p : Timer.t) : Timer.t :=
  let active := ((Timer.active p - 1) mod 256)%Z in
  Timer.mk (if (active =? 0)%Z then false else Timer.in_use p) active
    (Timer.peer_bdaddr p)
    (<[timer_idx := BTA_ID_MAX env]> (Timer.srvc_id p)) (Timer.pm_action p)
    (<[timer_idx := false]> (Timer.timer p)).

Definition bta_dm_pm_stop_timer_by_index (env : Env) (i timer_idx : nat) : PM unit :=
  if bool_decide (BTA_DM_PM_MODE_TIMER_MAX <= timer_idx) then skip
  else
    let* p := timer_at env i in
    if (cell (BTA_ID_MAX env) (Timer.srvc_id p) timer_idx =? BTA_ID_MAX env)%Z
    then skip
    else if negb (Timer.in_use p) || negb (Timer.active p >? 0)%Z
    then emit AssertFailed
    else
      timer_update env i (stop_timer_slot env timer_idx) ;;;
      emit (alarm_cancel i timer_idx).

(** [pm_timer[i].pm_action[j] = v] *)
Definition set_pm_action (env : Env) (i j : nat) (v : Z) : PM unit :=
  timer_update env i (fun p =>
    Timer.mk (Timer.in_use p) (Timer.active p) (Timer.peer_bdaddr p)
      (Timer.srvc_id p) (<[j := v]> (Timer.pm_action p)) (Timer.timer p)).

(** The first slot that is in use for [peer_addr], as the loops of
    [bta_dm_pm_stop_timer] and [bta_dm_pm_stop_timer_by_mode] find it. *)
Fixpoint find_slot_from (peer_addr : RawAddress) (slots : list Timer.t) (i : nat)
    : option nat :=
  match slots with
  | [] => None
  | p :: rest =>
      if Timer.in_use p && (Timer.peer_bdaddr p =? peer_addr)%Z then Some i
      else find_slot_from peer_addr rest (S i)
  end.

Definition find_slot (env : Env) (peer_addr : RawAddress) : PM (option nat) :=
  gets (fun c => find_slot_from peer_addr (take (BTA_DM_NUM_PM_TIMER env) (pm_timer c)) 0).

(** [bta_dm_pm_stop_timer] (lines 164-186) *)
Definition bta_dm_pm_stop_timer (env : Env) (peer_addr : RawAddress) : PM unit :=
  let* found := find_slot env peer_addr in
  match found with
  | Some i =>
      for_each (bta_dm_pm_stop_timer_by_index env i) (seq 0 BTA_DM_PM_MODE_TIMER_MAX)
  | None => skip
  end.

(** [bta_dm_pm_stop_timer_by_mode] (lines 221-242) *)
Definition bta_dm_pm_stop_timer_by_mode
    (env : Env) (peer_addr : RawAddress) (power_mode : Z) : PM unit :=
  let timer_idx := bta_pm_action_to_timer_idx env power_mode in
  if bool_decide (timer_idx = BTA_DM_PM_MODE_TIMER_MAX) then skip
  else
    let* found := find_slot env peer_addr in
    match found with
    | Some i =>
        let* p := timer_at env i in
        if negb (cell (BTA_ID_MAX env) (Timer.srvc_id p) timer_idx =? BTA_ID_MAX env)%Z
        then
          bta_dm_pm_stop_timer_by_index env i timer_idx ;;;
          set_pm_action env i timer_idx power_mode
        else skip
    | None => skip
    end.

(** The first timer index of a slot whose service id is [srvc_id]. *)
Fixpoint find_srvc_from (srvc_id : Z) (ids : list Z) (j : nat) : option nat :=
  match ids with
  | [] => None
  | x :: rest =>
      if (x =? srvc_id)%Z then Some j else find_srvc_from srvc_id rest (S j)
  end.

(** [bta_dm_pm_stop_timer_by_srvc_id] (lines 254-268): every slot in use for
    the peer is visited. *)
Definition bta_dm_pm_stop_timer_by_srvc_id
    (env : Env) (peer_addr : RawAddress) (srvc_id : Z) : PM unit :=
  for_each
    (fun i =>
       let* p := timer_at env i in
       if Timer.in_use p && (Timer.peer_bdaddr p =? peer_addr)%Z then
         match find_srvc_from srvc_id
                 (take BTA_DM_PM_MODE_TIMER_MAX (Timer.srvc_id p)) 0 with
         | Some j =>
             bta_dm_pm_stop_timer_by_index env i j ;;;
             set_pm_action env i j BTA_DM_PM_NO_ACTION
         | None => skip
         end
       else skip)
    (seq 0 (BTA_DM_NUM_PM_TIMER env)).

(** [bta_dm_pm_timer_cback] (lines 952-982) for the alarm
    [bta_dm_cb.pm_timer[alarm_i].timer[alarm_j]].  The scan visits the slots in
    order; a slot in use whose [active] is zero is marked free on the way. *)
Definition timer_cback_hit (env : Env) (j : nat) (p : Timer.t) : Timer.t :=
  let active := ((Timer.active p - 1) mod 256)%Z in
  Timer.mk (if (active =? 0)%Z then false else Timer.in_use p) active
    (Timer.peer_bdaddr p)
    (<[j := BTA_ID_MAX env]> (Timer.srvc_id p)) (Timer.pm_action p)
    (Timer.timer p).

Definition timer_cback_miss (p : Timer.t) : Timer.t :=
  Timer.mk (if (Timer.active p =? 0)%Z then false else Timer.in_use p)
    (Timer.active p) (Timer.peer_bdaddr p) (Timer.srvc_id p)
    (Timer.pm_action p) (Timer.timer p).

Fixpoint timer_cback_scan
    (env : Env) (alarm_i alarm_j : nat) (i : nat) (slots : list Timer.t)
    : list Timer.t * option (RawAddress * Z) :=
  match slots with
  | [] => ([], None)
  | p :: rest =>
      if Timer.in_use p then
        if bool_decide (i = alarm_i) && bool_decide (alarm_j < BTA_DM_PM_MODE_TIMER_MAX)
        then
          (timer_cback_hit env alarm_j p :: rest,
           Some (Timer.peer_bdaddr p,
                 cell BTA_DM_PM_NO_ACTION (Timer.pm_action p) alarm_j))
        else
          let r := timer_cback_scan env alarm_i alarm_j (S i) rest in
          (timer_cback_miss p :: fst r, snd r)
      else
        let r := timer_cback_scan env alarm_i alarm_j (S i) rest in
        (p :: fst r, snd r)
  end.

Definition bta_dm_pm_timer_cback (env : Env) (alarm_i alarm_j : nat) : PM unit :=
  let* slots := gets pm_timer in
  let r := timer_cback_scan env alarm_i alarm_j 0
             (take (BTA_DM_NUM_PM_TIMER env) slots) in
  modify (with_pm_timer (fst r ++ drop (BTA_DM_NUM_PM_TIMER env) slots)) ;;;
  match snd r with
  | None => skip
  | Some (peer_bdaddr, pm_action) => emit (post_bta_dm_pm_timer peer_bdaddr pm_action)
  end.

(** Modelled from the spec: the alarm service (section 4.3) delivers a one-shot
    alarm that is scheduled and has not been cancelled; once it fires it is no
    longer scheduled.  [alarm_fires] is that delivery for the alarm of timer
    index [alarm_j] in slot [alarm_i]: the alarm leaves the schedule and
    [bta_dm_pm_timer_cback] runs. *)
Definition alarm_fires (env : Env) (alarm_i alarm_j : nat) : PM unit :=
  timer_update env alarm_i (fun p =>
    Timer.mk (Timer.in_use p) (Timer.active p) (Timer.peer_bdaddr p)
      (Timer.srvc_id p) (Timer.pm_action p) (<[alarm_j := false]> (Timer.timer p))) ;;;
  bta_dm_pm_timer_cback env alarm_i alarm_j.

(* ===================================================================== *)
(** * 12. Classic power manager: mode selection and sniff subrating       *)
(* ===================================================================== *)

(** The search "find if there is an power mode entry for the service"
    (lines 355-360, 542-547): the least [j] in [[1, n]] whose entry matches,
    [n + 1] when there is none; [n] is [p_bta_dm_pm_cfg[0].app_id]. *)
Definition cfg_matches (env : Env) (id app_id : Z) (j : nat) : bool :=
  (Cfg.id (p_bta_dm_pm_cfg env j) =? id)%Z
  && ((Cfg.app_id (p_bta_dm_pm_cfg env j) =? BTA_ALL_APP_ID env)%Z
      || (Cfg.app_id (p_bta_dm_pm_cfg env j) =? app_id)%Z).

Fixpoint find_cfg_from (env : Env) (id app_id : Z) (j fuel : nat) : nat :=
  match fuel with
  | O => j
  | S fuel' =>
      if cfg_matches env id app_id j then j
      else find_cfg_from env id app_id (S j) fuel'
  end.

Definition cfg_count (env : Env) : nat :=
  Z.to_nat (Cfg.app_id (p_bta_dm_pm_cfg env 0)).

Definition find_cfg (env : Env) (id app_id : Z) : nat :=
  find_cfg_from env id app_id 1 (cfg_count env).

(** [bta_dm_find_peer_device] (lines 1096-1106): the index of the record. *)
Fixpoint find_peer_from (peer_addr : RawAddress) (devs : list Dev.t) (i : nat)
    : option nat :=
  match devs with
  | [] => None
  | d :: rest =>
      if (Dev.peer_bdaddr d =? peer_addr)%Z then Some i
      else find_peer_from peer_addr rest (S i)
  end.

Definition bta_dm_find_peer_device (peer_addr : RawAddress) : PM (option nat) :=
  gets (fun c => find_peer_from peer_addr (peer_device c) 0).

Definition Dev_zero : Dev.t := Dev.mk 0%Z 0%Z 0%Z 0%Z BTM_PM_STS_ACTIVE.

Definition dev_at (i : nat) : PM Dev.t :=
  gets (fun c => cell Dev_zero (peer_device c) i).

Definition dev_update (i : nat) (f : Dev.t -> Dev.t) : PM unit :=
  modify (fun c =>
    with_peer_device (<[i := f (cell Dev_zero (peer_device c) i)]> (peer_device c)) c).

(** [bta_dm_get_sco_index] (lines 1117-1126); [None] is [-1]. *)
Fixpoint sco_index_from (env : Env) (srvcs : list Srvc.t) (j : nat) : option nat :=
  match srvcs with
  | [] => None
  | s :: rest =>
      if (Srvc.id s =? BTA_ID_AG env)%Z
         && bool_decide (Srvc.state s = BTA_SYS_SCO_OPEN)
      then Some j
      else sco_index_from env rest (S j)
  end.

Definition bta_dm_get_sco_index (env : Env) (c : cb) : option nat :=
  sco_index_from env (conn_srvc c) 0.

(** The local variables of [bta_dm_pm_set_mode] that its loop over the
    connected services computes (lines 508-514). *)
Record Selection := mkSelection {
  pm_action : Z;
  timeout_ms : Z;
  allowed_modes : Z;
  pref_modes : Z;
}.

Definition Selection_init : Selection := mkSelection BTA_DM_PM_NO_ACTION 0 0 0.

(** The action the service's specification proposes for its current state:
    [p_act0] (lines 549-551). *)
Definition srvc_spec (env : Env) (p_srvcs : Srvc.t) : Spec.t :=
  get_bta_dm_pm_spec env
    (Cfg.spec_idx
       (p_bta_dm_pm_cfg env (find_cfg env (Srvc.id p_srvcs) (Srvc.app_id p_srvcs)))).

Definition srvc_action (env : Env) (p_srvcs : Srvc.t) : Actn.t :=
  Spec.actn_tbl (srvc_spec env p_srvcs) (Srvc.state p_srvcs).

(** One iteration of the loop (lines 539-576) on a service of the peer. *)
Definition select_step
    (env : Env) (failed_pm : Z) (pm_req : tBTA_DM_PM_REQ)
    (p_srvcs : Srvc.t) (s : Selection) : Srvc.t * Selection :=
  let p_act0 := srvc_action env p_srvcs in
  let allowed := Z.lor (allowed_modes s) (Spec.allow_mask (srvc_spec env p_srvcs)) in
  if (Z.land failed_pm (Actn.power_mode p_act0) =? 0)%Z then
    let pref := Z.lor (pref_modes s) (Actn.power_mode p_act0) in
    if (Actn.power_mode p_act0 >=? pm_action s)%Z then
      if negb (bool_decide (pm_req = BTA_DM_PM_NEW_REQ)) || Srvc.new_request p_srvcs
      then
        (Srvc.with_new_request false p_srvcs,
         mkSelection (Actn.power_mode p_act0) (Actn.timeout p_act0) allowed pref)
      else
        (p_srvcs, mkSelection (Actn.power_mode p_act0) (timeout_ms s) allowed pref)
    else (p_srvcs, mkSelection (pm_action s) (timeout_ms s) allowed pref)
  else (p_srvcs, mkSelection (pm_action s) (timeout_ms s) allowed (pref_modes s)).

(** The loop over [bta_dm_conn_srvcs] (lines 538-577). *)
Fixpoint select_loop
    (env : Env) (peer_addr : RawAddress) (failed_pm : Z) (pm_req : tBTA_DM_PM_REQ)
    (srvcs : list Srvc.t) (s : Selection) : list Srvc.t * Selection :=
  match srvcs with
  | [] => ([], s)
  | p_srvcs :: rest =>
      if (Srvc.peer_bdaddr p_srvcs =? peer_addr)%Z then
        let r := select_step env failed_pm pm_req p_srvcs s in
        let r' := select_loop env peer_addr failed_pm pm_req rest (snd r) in
        (fst r :: fst r', snd r')
      else
        let r' := select_loop env peer_addr failed_pm pm_req rest s in
        (p_srvcs :: fst r', snd r')
  end.

(** "some service don't like the mode" (lines 579-592). *)
Definition select_adjust (env : Env) (s : Selection) : Selection :=
  let park_or_sniff := Z.lor (BTA_DM_PM_PARK env) (BTA_DM_PM_SNIFF env) in
  if negb (Z.land (pm_action s) park_or_sniff =? 0)%Z then
    if (Z.land (allowed_modes s) (pm_action s) =? 0)%Z then
      let pm_action' := Z.land (Z.land (allowed_modes s) park_or_sniff) (pref_modes s) in
      mkSelection pm_action'
        (if (pm_action' =? BTA_DM_PM_NO_ACTION)%Z then 0%Z else timeout_ms s)
        (allowed_modes s) (pref_modes s)
    else s
  else s.

(** The selection of [bta_dm_pm_set_mode] on a table of connected services:
    lines 536-592. *)
Definition select_mode
    (env : Env) (peer_addr : RawAddress) (failed_pm : Z) (pm_req : tBTA_DM_PM_REQ)
    (srvcs : list Srvc.t) : list Srvc.t * Selection :=
  let r := select_loop env peer_addr failed_pm pm_req srvcs Selection_init in
  (fst r, select_adjust env (snd r)).

(** [bta_dm_pm_park] (lines 678-696) *)
Definition bta_dm_pm_park (env : Env) (peer_addr : RawAddress) : PM unit :=
  let mode := default BTM_PM_STS_ACTIVE (BTM_ReadPowerMode env peer_addr) in
  if negb (bool_decide (mode = BTM_PM_STS_PARK)) then
    emit (BTM_SetPowerMode peer_addr PM_PARK)
  else skip.

(** [bta_dm_pm_active] (lines 907-932) *)
Definition bta_dm_pm_active (peer_addr : RawAddress) : PM unit :=
  emit (BTM_SetPowerMode peer_addr PM_ACTIVE).

Definition has_bit (x bit : Z) : bool := negb (Z.land x bit =? 0)%Z.
Definition clear_bits (x bits : Z) : Z := Z.land x (Z.lnot bits).

(** [bta_dm_pm_sniff] (lines 761-816), on the device record number [dev]. *)
Definition bta_dm_pm_sniff (env : Env) (dev : nat) (index : Z) : PM unit :=
  let* p_peer_dev := dev_at dev in
  let peer := Dev.peer_bdaddr p_peer_dev in
  let mode := default BTM_PM_STS_ACTIVE (BTM_ReadPowerMode env peer) in
  let p_rem_feat := BTM_ReadRemoteFeatures env peer in
  if (negb (bool_decide (mode = BTM_PM_STS_SNIFF))
      || (supports_sniff_subrating env
          && default false p_rem_feat
          && negb (has_bit (Dev.info p_peer_dev) (BTA_DM_DI_USE_SSR env))))
     && (bool_decide (mode = BTM_PM_STS_SNIFF)
         && has_bit (Dev.info p_peer_dev) (BTA_DM_DI_ACP_SNIFF env))
  then skip
  else
    let request :=
      PM_SNIFF index (has_bit (Dev.info p_peer_dev) (BTA_DM_DI_INT_SNIFF env)) in
    emit (BTM_SetPowerMode peer request) ;;;
    let sniff_bits :=
      Z.lor (Z.lor (BTA_DM_DI_INT_SNIFF env) (BTA_DM_DI_ACP_SNIFF env))
        (BTA_DM_DI_SET_SNIFF env) in
    match BTM_SetPowerMode_status env peer request with
    | BTM_CMD_STORED | BTM_CMD_STARTED =>
        dev_update dev (fun d =>
          Dev.with_info
            (Z.lor
               (clear_bits (Dev.info d)
                  (Z.lor (BTA_DM_DI_INT_SNIFF env) (BTA_DM_DI_ACP_SNIFF env)))
               (BTA_DM_DI_SET_SNIFF env)) d)
    | _ =>
        dev_update dev (fun d => Dev.with_info (clear_bits (Dev.info d) sniff_bits) d)
    end.

(** The timer part of [bta_dm_pm_set_mode] (lines 594-637); [srvc_id] is
    [p_srvcs->id], the id of the last cell of the table.  [available_timer]
    starts as [BTA_DM_PM_MODE_TIMER_MAX], which also stands for "none". *)
Fixpoint available_timer_from
    (slots : list Timer.t) (i : nat) (available_timer : nat) : nat :=
  match slots with
  | [] => available_timer
  | p :: rest =>
      if Timer.in_use p then available_timer_from rest (S i) available_timer
      else
        available_timer_from rest (S i)
          (if bool_decide (available_timer = BTA_DM_PM_MODE_TIMER_MAX) then i
           else available_timer)
  end.

(** The slots the loop inspects before it stops at the peer's slot. *)
Definition slots_before (c : cb) (env : Env) (found : option nat) : list Timer.t :=
  match found with
  | Some i => take i (pm_timer c)
  | None => take (BTA_DM_NUM_PM_TIMER env) (pm_timer c)
  end.

Definition set_mode_timer
    (env : Env) (peer_addr : RawAddress) (srvc_id : Z) (s : Selection) : PM unit :=
  let* found := find_slot env peer_addr in
  let timer_idx := bta_pm_action_to_timer_idx env (pm_action s) in
  let* timer_started :=
    match found with
    | Some i =>
        if negb (bool_decide (timer_idx = BTA_DM_PM_MODE_TIMER_MAX)) then
          (if (alarm_get_remaining_ms env i timer_idx <? timeout_ms s)%Z then
             bta_dm_pm_stop_timer_by_index env i timer_idx ;;;
             bta_dm_pm_start_timer env i timer_idx (timeout_ms s) srvc_id (pm_action s)
           else skip) ;;;
          ret true
        else ret false
    | None => ret false
    end in
  if timer_started then skip
  else
    let* c := gets (fun c => c) in
    let available_timer :=
      available_timer_from (slots_before c env found) 0 BTA_DM_PM_MODE_TIMER_MAX in
    if negb (bool_decide (available_timer = BTA_DM_PM_MODE_TIMER_MAX)) then
      timer_update env available_timer (fun p =>
        Timer.mk (Timer.in_use p) (Timer.active p) peer_addr
          (Timer.srvc_id p) (Timer.pm_action p) (Timer.timer p)) ;;;
      if negb (bool_decide (timer_idx = BTA_DM_PM_MODE_TIMER_MAX)) then
        bta_dm_pm_start_timer env available_timer timer_idx (timeout_ms s)
          srvc_id (pm_action s)
      else skip
    else skip.

(** [bta_dm_pm_set_mode] (lines 505-667) *)
Definition bta_dm_pm_set_mode
    (env : Env) (peer_addr : RawAddress) (pm_request : Z) (pm_req : tBTA_DM_PM_REQ)
    : PM unit :=
  let* devs := gets peer_device in
  if bool_decide (devs = []) then skip
  else
  let* found := bta_dm_find_peer_device peer_addr in
  match found with
  | None => skip
  | Some dev =>
      let* p_peer_device := dev_at dev in
      let failed_pm := Dev.pm_mode_failed p_peer_device in
      let* srvcs := gets conn_srvc in
      let r := select_mode env peer_addr failed_pm pm_req srvcs in
      modify (with_conn_srvc (fst r)) ;;;
      let s := snd r in
      if negb (bool_decide (pm_req = BTA_DM_PM_EXECUTE)) && (timeout_ms s >? 0)%Z then
        set_mode_timer env peer_addr
          (default 0%Z (Srvc.id <$> last srvcs)) s
      else if bool_decide (pm_req = BTA_DM_PM_EXECUTE) && (pm_request <? pm_action s)%Z
      then skip
      else if (pm_action s =? BTA_DM_PM_PARK env)%Z then
        dev_update dev (Dev.with_pm_mode_attempted (BTA_DM_PM_PARK env)) ;;;
        bta_dm_pm_park env peer_addr
      else if has_bit (pm_action s) (BTA_DM_PM_SNIFF env) then
        if BTM_is_sniff_allowed_for env peer_addr then
          dev_update dev (Dev.with_pm_mode_attempted (BTA_DM_PM_SNIFF env)) ;;;
          bta_dm_pm_sniff env dev (Z.land (pm_action s) 0x0F)
        else skip
      else if (pm_action s =? BTA_DM_PM_ACTIVE env)%Z then
        bta_dm_pm_active peer_addr
      else skip
  end.

(** [bta_dm_pm_ssr] (lines 826-896).  [current_ssr] is the inner loop over
    the configuration (lines 839-852): [current_ssr_index] is overwritten at
    every entry visited, so without a match it ends as the last entry's. *)
Definition current_ssr (env : Env) (service : Srvc.t) : nat :=
  let n := cfg_count env in
  if bool_decide (n = 0) then BTA_DM_PM_SSR0
  else
    let j := find_cfg env (Srvc.id service) (Srvc.app_id service) in
    Spec.ssr (get_bta_dm_pm_spec env (Cfg.spec_idx (p_bta_dm_pm_cfg env (Nat.min j n)))).

Definition ssr_spec_at (i : nat) : PM Ssr.t :=
  gets (fun c => cell Ssr.zero (p_bta_dm_ssr_spec c) i).

Fixpoint ssr_loop
    (env : Env) (peer_addr : RawAddress) (srvcs : list Srvc.t) (ssr_index : nat)
    : PM nat :=
  match srvcs with
  | [] => ret ssr_index
  | service :: rest =>
      if negb (Srvc.peer_bdaddr service =? peer_addr)%Z then
        ssr_loop env peer_addr rest ssr_index
      else
        let current_ssr_index := current_ssr env service in
        let* read_ok :=
          (if bool_decide (current_ssr_index = BTA_DM_PM_SSR_HH) then
             match bta_hh_read_ssr_param env peer_addr with
             | None => ret false
             | Some (max_lat, min_rmt_to) =>
                 modify (fun c =>
                   with_ssr_spec
                     (<[current_ssr_index :=
                          Ssr.mk max_lat min_rmt_to
                            (Ssr.min_loc_to
                               (cell Ssr.zero (p_bta_dm_ssr_spec c) current_ssr_index))]>
                        (p_bta_dm_ssr_spec c)) c) ;;;
                 ret true
             end
           else ret true) in
        if negb read_ok then ssr_loop env peer_addr rest ssr_index
        else
          let* p_spec_cur := ssr_spec_at current_ssr_index in
          let* p_spec := ssr_spec_at ssr_index in
          if (Ssr.max_lat p_spec_cur <? Ssr.max_lat p_spec)%Z
             || (bool_decide (ssr_index = BTA_DM_PM_SSR0)
                 && negb (bool_decide (current_ssr_index = BTA_DM_PM_SSR0)))
          then ssr_loop env peer_addr rest current_ssr_index
          else ssr_loop env peer_addr rest ssr_index
  end.

(** "Avoid SSR reset on device which has SCO connected" (lines 878-884). *)
Definition sco_is_on (env : Env) (c : cb) (peer_addr : RawAddress) : bool :=
  match bta_dm_get_sco_index env c with
  | Some idx =>
      match conn_srvc c !! idx with
      | Some s => (Srvc.peer_bdaddr s =? peer_addr)%Z
      | None => false
      end
  | None => false
  end.

Definition bta_dm_pm_ssr (env : Env) (peer_addr : RawAddress) (ssr : nat) : PM unit :=
  let* srvcs := gets conn_srvc in
  let* ssr_index := ssr_loop env peer_addr srvcs ssr in
  let* p_spec := ssr_spec_at ssr_index in
  if negb (Ssr.max_lat p_spec =? 0)%Z then
    let* c := gets (fun c => c) in
    if sco_is_on env c peer_addr then skip
    else
      emit (BTM_SetSsrParams peer_addr (Ssr.max_lat p_spec)
              (Ssr.min_rmt_to p_spec) (Ssr.min_loc_to p_spec))
  else skip.

(** The table update of [bta_dm_pm_cback] (lines 402-450).  [j] is the cell of
    the service ([count] when it has none); the result is [None] where the
    callback returns, which it does only when the service has no cell, so that
    the table is then as it was. *)
Fixpoint find_srvc_entry
    (id app_id : Z) (peer_addr : RawAddress) (srvcs : list Srvc.t) (j : nat) : nat :=
  match srvcs with
  | [] => j
  | s :: rest =>
      if (Srvc.id s =? id)%Z && (Srvc.app_id s =? app_id)%Z
         && (Srvc.peer_bdaddr s =? peer_addr)%Z
      then j
      else find_srvc_entry id app_id peer_addr rest (S j)
  end.

Definition update_conn_srvcs
    (env : Env) (status : tBTA_SYS_CONN_STATUS) (id app_id : Z)
    (peer_addr : RawAddress) (power_mode : Z) (srvcs : list Srvc.t)
    : option (list Srvc.t) :=
  let j := find_srvc_entry id app_id peer_addr srvcs 0 in
  let srvcs := alter (Srvc.with_new_request true) j srvcs in
  if (power_mode =? BTA_DM_PM_NO_PREF env)%Z then
    if negb (bool_decide (j = length srvcs)) then Some (delete j srvcs)
    else None
  else if bool_decide (j = length srvcs) then
    if bool_decide (length srvcs = BTA_DM_NUM_CONN_SRVS env) then None
    else Some (srvcs ++ [Srvc.mk id app_id true status peer_addr])
  else Some (alter (Srvc.with_state status) j srvcs).

(** [bta_dm_pm_cback] (lines 344-492) *)
Definition bta_dm_pm_cback
    (env : Env) (status : tBTA_SYS_CONN_STATUS) (id app_id : Z)
    (peer_addr : RawAddress) : PM unit :=
  let i := find_cfg env id app_id in
  if bool_decide (cfg_count env < i) then skip
  else
  bta_dm_pm_stop_timer_by_srvc_id env peer_addr id ;;;
  let* p_dev := bta_dm_find_peer_device peer_addr in
  let* dev_info :=
    match p_dev with
    | Some dev => let* d := dev_at dev in ret (Some (Dev.info d))
    | None => ret None
    end in
  let spec := get_bta_dm_pm_spec env (Cfg.spec_idx (p_bta_dm_pm_cfg env i)) in
  let index :=
    if bool_decide (status = BTA_SYS_CONN_OPEN)
       && match dev_info with
          | Some info => has_bit info (BTA_DM_DI_USE_SSR env)
          | None => false
          end
    then Spec.ssr spec
    else if (id =? BTA_ID_AV env)%Z then
      if bool_decide (status = BTA_SYS_CONN_BUSY) then BTA_DM_PM_SSR4
      else if bool_decide (status = BTA_SYS_CONN_IDLE) then Spec.ssr spec
      else BTA_DM_PM_SSR0
    else BTA_DM_PM_SSR0 in
  let power_mode := Actn.power_mode (Spec.actn_tbl spec status) in
  if (power_mode =? BTA_DM_PM_NO_ACTION)%Z && bool_decide (index = BTA_DM_PM_SSR0)
  then skip
  else
  let* srvcs := gets conn_srvc in
  match update_conn_srvcs env status id app_id peer_addr power_mode srvcs with
  | None => skip
  | Some srvcs' =>
      modify (with_conn_srvc srvcs') ;;;
      bta_dm_pm_stop_timer env peer_addr ;;;
      let pm_req :=
        if bool_decide (srvcs' = []) then BTA_DM_PM_NEW_REQ else BTA_DM_PM_RESTART in
      match p_dev with
      | Some dev =>
          dev_update dev (fun d =>
            Dev.with_pm_mode_failed 0 (Dev.with_pm_mode_attempted 0 d))
      | None => skip
      end ;;;
      let* p_spec := ssr_spec_at index in
      (if negb (Ssr.max_lat p_spec =? 0)%Z || bool_decide (index = BTA_DM_PM_SSR_HH)
       then
         if negb (id =? BTA_ID_AV env)%Z
            || negb (bool_decide (status = BTA_SYS_CONN_BUSY))
         then bta_dm_pm_ssr env peer_addr index
         else skip
       else
         if supports_sniff_subrating env
            && default false (BTM_ReadRemoteFeatures env peer_addr)
            && bool_decide (index = BTA_DM_PM_SSR0)
         then
           if bool_decide (status = BTA_SYS_SCO_OPEN) then
             emit (BTM_SetSsrParams peer_addr 0 0 0)
           else if bool_decide (status = BTA_SYS_SCO_CLOSE) then
             bta_dm_pm_ssr env peer_addr BTA_DM_PM_SSR0
           else skip
         else skip) ;;;
      bta_dm_pm_set_mode env peer_addr BTA_DM_PM_NO_ACTION pm_req
  end.

(** [bta_dm_pm_timer] (lines 1082-1085) *)
Definition bta_dm_pm_timer (env : Env) (bd_addr : RawAddress) (pm_request : Z)
    : PM unit :=
  bta_dm_pm_set_mode env bd_addr pm_request BTA_DM_PM_EXECUTE.

(** [bta_dm_pm_btm_status] (lines 985-1079); [hci_ok] is [hci_status == 0]. *)
Definition bta_dm_pm_btm_status
    (env : Env) (bd_addr : RawAddress) (status : tBTM_PM_STATUS)
    (interval : Z) (hci_ok : bool) : PM unit :=
  let* found := bta_dm_find_peer_device bd_addr in
  match found with
  | None => skip
  | Some dev =>
      let* p_dev := dev_at dev in
      let info := Dev.info p_dev in
      let sniff_bits :=
        Z.lor (Z.lor (BTA_DM_DI_INT_SNIFF env) (BTA_DM_DI_ACP_SNIFF env))
          (BTA_DM_DI_SET_SNIFF env) in
      let park_or_sniff := Z.lor (BTA_DM_PM_PARK env) (BTA_DM_PM_SNIFF env) in
      match status with
      | BTM_PM_STS_ACTIVE =>
          if negb hci_ok then
            dev_update dev (fun d => Dev.with_info (clear_bits (Dev.info d) sniff_bits) d) ;;;
            if has_bit (Dev.pm_mode_attempted p_dev) park_or_sniff then
              dev_update dev (fun d =>
                Dev.with_pm_mode_failed
                  (Z.lor (Dev.pm_mode_failed d)
                     (Z.land park_or_sniff (Dev.pm_mode_attempted d))) d) ;;;
              bta_dm_pm_stop_timer_by_mode env bd_addr (Dev.pm_mode_attempted p_dev) ;;;
              bta_dm_pm_set_mode env bd_addr BTA_DM_PM_NO_ACTION BTA_DM_PM_RESTART
            else skip
          else
            (if negb (bool_decide (Dev.prev_low p_dev = BTM_PM_STS_ACTIVE)) then
               bta_dm_pm_ssr env (Dev.peer_bdaddr p_dev) BTA_DM_PM_SSR0
             else skip) ;;;
            dev_update dev (Dev.with_prev_low BTM_PM_STS_ACTIVE) ;;;
            bta_dm_pm_stop_timer env bd_addr ;;;
            bta_dm_pm_set_mode env bd_addr BTA_DM_PM_NO_ACTION BTA_DM_PM_RESTART
      | BTM_PM_STS_PARK | BTM_PM_STS_HOLD =>
          if has_bit info (BTA_DM_DI_USE_SSR env) then
            dev_update dev (Dev.with_prev_low status)
          else skip
      | BTM_PM_STS_SSR =>
          if negb (interval =? 0)%Z then
            dev_update dev (fun d =>
              Dev.with_info (Z.lor (Dev.info d) (BTA_DM_DI_USE_SSR env)) d)
          else
            dev_update dev (fun d =>
              Dev.with_info (clear_bits (Dev.info d) (BTA_DM_DI_USE_SSR env)) d)
      | BTM_PM_STS_SNIFF =>
          if hci_ok then bta_dm_pm_stop_timer env bd_addr
          else
            dev_update dev (fun d =>
              Dev.with_info
                (Z.lor (clear_bits (Dev.info d) sniff_bits)
                   (if has_bit info (BTA_DM_DI_SET_SNIFF env)
                    then BTA_DM_DI_INT_SNIFF env else BTA_DM_DI_ACP_SNIFF env)) d)
      | BTM_PM_STS_ERROR =>
          dev_update dev (fun d =>
            Dev.with_info (clear_bits (Dev.info d) (BTA_DM_DI_SET_SNIFF env)) d)
      | BTM_PM_STS_PENDING => skip
      end
  end.

End PowerManager.

(* ===================================================================== *)
(** * 13. Concrete configurations used by the examples                    *)
(* ===================================================================== *)

Module Fixtures.
Import Gap AddressPolicy Hci.

(** A stand-in AEAD with four-octet tags: it adds the first key octet to every
    input octet and tags with the lengths it was given. *)
Definition test_aead : Manager.Aead :=
  Manager.mkAead
    (fun key => bool_decide (length key = 16))
    4
    (fun key nonce input ad =>
       (map (fun b => ((b + default 0 (head key)) mod 256)%Z) input,
        [Z.of_nat (length key); Z.of_nat (length nonce);
         Z.of_nat (length input); Z.of_nat (length ad)])).

(** The constants as the specification states them (section 4.4): fragments of
    252 octets, elements of at most 254, legacy data of at most 31. *)
Definition test_env (divide_flag legacy_flag : bool) : Manager.Env :=
  Manager.mkEnv divide_flag legacy_flag 31 252 252 254 true true
    0x112233445566 USE_RESOLVABLE_ADDRESS
    (mkAddressWithType 0xC0FFEE000001 RANDOM_DEVICE_ADDRESS)
    (fun n => mkAddressWithType (0x400000000000 + Z.of_nat n) RANDOM_DEVICE_ADDRESS)
    (fun n => mkAddressWithType (0x000000000100 + Z.of_nat n) RANDOM_DEVICE_ADDRESS)
    (fun _ => 900000%Z)
    test_aead
    (fun n count => repeat (Z.of_nat n) count)
    None.

(** Key material of the scenario S3 of the specification, 16-octet key
    [00 11 .. FF], and two initialisation vectors: 8 octets and 16 octets. *)
Definition key16 : list Z :=
  [0x00; 0x11; 0x22; 0x33; 0x44; 0x55; 0x66; 0x77;
   0x88; 0x99; 0xAA; 0xBB; 0xCC; 0xDD; 0xEE; 0xFF]%Z.
Definition iv8 : list Z :=
  [0x10; 0x11; 0x12; 0x13; 0x14; 0x15; 0x16; 0x17]%Z.
Definition iv16 : list Z :=
  (iv8 ++ [0x18; 0x19; 0x1A; 0x1B; 0x1C; 0x1D; 0x1E; 0x1F])%Z.
Definition randomizer5 : list Z := [0xA0; 0xA1; 0xA2; 0xA3; 0xA4]%Z.

(** An extended, connectable, discoverable, started advertiser with a rotation
    alarm and a resolvable address. *)
Definition test_advertiser (key_iv : list Z) : Advertiser :=
  mkAdvertiser (mkAddressWithType 0x400000000000 RANDOM_DEVICE_ADDRESS)
    RESOLVABLE_RANDOM false false 0 0 0 true false true true false true
    false false true [] [] [] randomizer5 [] [] [] key_iv.

(** A non-connectable variant of it. *)
Definition test_scannable_advertiser : Advertiser :=
  mkAdvertiser (mkAddressWithType 0x400000000000 RANDOM_DEVICE_ADDRESS)
    RESOLVABLE_RANDOM false false 0 0 0 true false false false false true
    false false true [] [] [] [] [] [] [] [].

(** A manager on the extended API with advertiser 0 registered and enabled. *)
Definition test_impl (is_paused : bool) (a : Advertiser) : Manager.impl :=
  Manager.mkImpl true 1650 {[ 0%nat := a ]} is_paused
    [mkEnabledSet 0 0 0; mkEnabledSet kInvalidHandle 0 0]
    {[ 0%nat := 7%Z ]} EXTENDED 0.

(** An element of type [0xFF] carrying [n] octets. *)
Definition blob (n : nat) : GapData := mkGapData 0xFF (repeat 0xBE%Z n).

End Fixtures.

(* ===================================================================== *)
(** * Theorems                                                            *)
(* ===================================================================== *)

(** ** Address policy *)

Module AddressPolicyFacts.
Import AddressPolicy.

Lemma requested_and_policy_is_table requested policy :
  GetAdvertiserAddressTypeFromRequestedTypeAndPolicy requested policy
  = spec_table requested policy.
Proof. destruct requested, policy; reflexivity. Qed.

(** C6, as stated, fails: with the flag [nrpa_non_connectable_adv] set, a
    non-connectable advertiser that requests a non-resolvable address under the
    public-address policy is created with a non-resolvable address, where the
    table says Public. *)
Lemma creation_address_type_off_table :
  creation_address_type true false NONRESOLVABLE_RANDOM USE_PUBLIC_ADDRESS
    = NONRESOLVABLE_RANDOM
  /\ spec_table NONRESOLVABLE_RANDOM USE_PUBLIC_ADDRESS = PUBLIC
  /\ creation_address_type true false NONRESOLVABLE_RANDOM USE_PUBLIC_ADDRESS
     <> spec_table NONRESOLVABLE_RANDOM USE_PUBLIC_ADDRESS.
Proof. repeat split; discriminate. Qed.

(** C6 (amended): the effective address type computed at advertiser creation
    is the entry of the specification's table whenever the set is connectable
    or the flag [nrpa_non_connectable_adv] is off, and under the RPA and NRPA
    policies in every case; for a non-connectable set with the flag on, under
    the Public or Static policy a requested Public stays Public and a requested
    RPA or NRPA yields NRPA.  [GetAdvertiserAddressTypeFromRequestedTypeAndPolicy]
    itself computes exactly the table. *)
Theorem creation_address_type_by_table :
  (forall requested policy,
      GetAdvertiserAddressTypeFromRequestedTypeAndPolicy requested policy
      = spec_table requested policy)
  /\ (forall flag connectable requested policy,
        flag && negb connectable = false ->
        creation_address_type flag connectable requested policy
        = spec_table requested policy)
  /\ (forall flag connectable requested,
        creation_address_type flag connectable requested USE_RESOLVABLE_ADDRESS
        = requested
        /\ creation_address_type flag connectable requested USE_NON_RESOLVABLE_ADDRESS
           = spec_table requested USE_NON_RESOLVABLE_ADDRESS)
  /\ (forall flag connectable policy,
        creation_address_type flag connectable PUBLIC policy = PUBLIC)
  /\ (forall requested policy,
        policy = USE_PUBLIC_ADDRESS \/ policy = USE_STATIC_ADDRESS ->
        requested <> PUBLIC ->
        creation_address_type true false requested policy = NONRESOLVABLE_RANDOM).
Proof.
  split; [exact requested_and_policy_is_table|].
  split.
  { intros flag connectable requested policy Hoff.
    unfold creation_address_type. rewrite Hoff.
    apply requested_and_policy_is_table. }
  split.
  { intros [] [] []; split; reflexivity. }
  split.
  { intros [] [] []; reflexivity. }
  intros requested policy [-> | ->] Hne; destruct requested;
    try reflexivity; congruence.
Qed.

Lemma creation_address_type_by_table_witness :
  creation_address_type true true RESOLVABLE_RANDOM USE_STATIC_ADDRESS = PUBLIC
  /\ creation_address_type true false RESOLVABLE_RANDOM USE_STATIC_ADDRESS
     = NONRESOLVABLE_RANDOM.
Proof.
  split.
  - apply (proj1 (proj2 creation_address_type_by_table) true true
             RESOLVABLE_RANDOM USE_STATIC_ADDRESS).
    reflexivity.
  - apply (proj2 (proj2 (proj2 (proj2 creation_address_type_by_table)))
             RESOLVABLE_RANDOM USE_STATIC_ADDRESS).
    + right. reflexivity.
    + discriminate.
Defined.

End AddressPolicyFacts.

(** ** Tx power calibration *)

Module TxPowerFacts.
Import TxPower.
Local Open Scope Z_scope.

Lemma compensation_accepted_range prop :
  -128 <= get_tx_path_loss_compensation prop <= 127.
Proof.
  unfold get_tx_path_loss_compensation, kLeTxPathLossCompMin, kLeTxPathLossCompMax.
  destruct prop as [[number|]|]; try lia.
  destruct (number <? -128) eqn:Hlo; destruct (number >? 127) eqn:Hhi; simpl; lia.
Qed.

Lemma compensation_of_accepted number :
  -128 <= number <= 127 ->
  get_tx_path_loss_compensation (Some (Some number)) = number.
Proof.
  intros H. unfold get_tx_path_loss_compensation,
    kLeTxPathLossCompMin, kLeTxPathLossCompMax.
  destruct (number <? -128) eqn:Hlo; destruct (number >? 127) eqn:Hhi; simpl; lia.
Qed.

Lemma compensation_of_rejected number :
  number < -128 \/ 127 < number ->
  get_tx_path_loss_compensation (Some (Some number)) = 0.
Proof.
  intros H. unfold get_tx_path_loss_compensation,
    kLeTxPathLossCompMin, kLeTxPathLossCompMax.
  destruct (number <? -128) eqn:Hlo; destruct (number >? 127) eqn:Hhi; simpl; lia.
Qed.

(** C9, as stated, fails: with a compensation of 10 dB and a requested power
    of 15 dBm the sum 25 is not clipped to 20; the manager keeps 15. *)
Lemma calibration_does_not_clip :
  calibrated_tx_power (Some (Some 10)) 15 = 15
  /\ spec_clipped_tx_power 10 15 = 20
  /\ calibrated_tx_power (Some (Some 10)) 15 <> spec_clipped_tx_power 10 15.
Proof. repeat split; discriminate. Qed.

(** C9 (amended): the configured compensation is accepted only when it lies in
    [[-128, 127]] (otherwise it counts as 0) and is added to the requested tx
    power; when the sum lies in [[-127, 20]] the sum is the set's calibrated tx
    power, and otherwise the requested tx power is used unchanged. *)
Theorem calibrated_tx_power_in_range_or_unchanged prop tx_power :
  let comp := get_tx_path_loss_compensation prop in
  -128 <= comp <= 127
  /\ (forall number, prop = Some (Some number) ->
        (-128 <= number <= 127 -> comp = number)
        /\ (number < -128 \/ 127 < number -> comp = 0))
  /\ (-127 <= tx_power + comp <= 20 ->
        calibrated_tx_power prop tx_power = tx_power + comp)
  /\ (tx_power + comp < -127 \/ 20 < tx_power + comp ->
        calibrated_tx_power prop tx_power = tx_power).
Proof.
  intros comp. subst comp.
  split; [apply compensation_accepted_range|].
  split.
  { intros number ->. split; [apply compensation_of_accepted
                             | apply compensation_of_rejected]. }
  unfold calibrated_tx_power, get_tx_power_after_calibration,
    kLeAdvertisingTxPowerMin, kLeAdvertisingTxPowerMax.
  set (comp := get_tx_path_loss_compensation prop).
  split; intros H.
  - destruct (comp =? 0) eqn:H0; [lia|].
    destruct (tx_power + comp <? -127) eqn:Hlo;
      destruct (tx_power + comp >? 20) eqn:Hhi; simpl; lia.
  - destruct (comp =? 0) eqn:H0; [reflexivity|].
    destruct (tx_power + comp <? -127) eqn:Hlo;
      destruct (tx_power + comp >? 20) eqn:Hhi; simpl; lia.
Qed.

Lemma calibrated_tx_power_in_range_or_unchanged_witness :
  calibrated_tx_power (Some (Some (-3))) 10 = 7
  /\ calibrated_tx_power (Some (Some 10)) 15 = 15.
Proof.
  split.
  - apply (proj1 (proj2 (proj2
             (calibrated_tx_power_in_range_or_unchanged (Some (Some (-3))) 10)))).
    vm_compute. split; discriminate.
  - apply (proj2 (proj2 (proj2
             (calibrated_tx_power_in_range_or_unchanged (Some (Some 10)) 15)))).
    right. vm_compute. reflexivity.
Defined.

End TxPowerFacts.
